(** * X11 screen capture: [x11_grab_screen] and its JNI entry point

    A shallow embedding of
    [net_java_sip_communicator_impl_neomedia_imgstreaming_UnixScreenCapture.c].

    The routine talks to three collaborators: the X server (through Xlib and
    the MIT-SHM extension), the System V shared-memory calls of the kernel,
    and the C heap.  They are modelled by a record of answers ([XEnv], a test
    double) and every call is logged in a trace, next to four flags that say
    which resources are currently held.

    Integers are [Z] with the conversions of the C types written out.  The
    platform is LP64 ([size_t] and [unsigned long] have 64 bits); [int],
    [int32_t], [jint] and [jsize] have 32 bits, and signed arithmetic that
    leaves the 32-bit range wraps around, as the compiled code does. *)

From stdpp Require Import base numbers option list strings.
From Stdlib Require Import ZArith Lia.

Local Open Scope Z_scope.

(** ** C integer conversions *)

Module CInt.

Definition INT32_MIN : Z := - 2 ^ 31.
Definition INT32_MAX : Z := 2 ^ 31 - 1.
Definition PTRDIFF_MAX : Z := 2 ^ 63 - 1.

(** Conversion to [int32_t] / [int] / [jint]. *)
Definition to_int32 (z : Z) : Z := (z + 2 ^ 31) mod 2 ^ 32 - 2 ^ 31.

(** Conversion to [uint32_t] / [unsigned int]. *)
Definition to_uint32 (z : Z) : Z := z mod 2 ^ 32.

(** Conversion to [size_t] / [unsigned long]. *)
Definition to_size_t (z : Z) : Z := z mod 2 ^ 64.

(** [a + b] and [a * b] at type [int]. *)
Definition add32 (a b : Z) : Z := to_int32 (a + b).
Definition mul32 (a b : Z) : Z := to_int32 (a * b).

Definition in_int32 (z : Z) : Prop := INT32_MIN <= z <= INT32_MAX.

End CInt.
Import CInt.

(** ** The calls the routine can issue *)

Inductive XCall : Type :=
| EvGetenv                                   (* getenv("DISPLAY") *)
| EvOpenDisplay (name : string)
| EvShmQueryExtension
| EvShmCreateImage (depth width height : Z)
| EvShmget (size : Z)
| EvShmat (shmid : Z)
| EvShmctlRmid (shmid : Z)
| EvShmAttach
| EvShmGetImage (x y plane_mask : Z)
| EvGetImage (x y width height plane_mask : Z)
| EvMalloc (bytes : Z)
| EvDestroyImage
| EvShmDetach
| EvShmdt
| EvCloseDisplay
| EvNewIntArray (len : Z)
| EvSetIntArrayRegion (start len : Z)
| EvFree.

(** A request that makes the server read pixels of the root window. *)
Definition is_image_request (c : XCall) : bool :=
  match c with
  | EvShmGetImage _ _ _ | EvGetImage _ _ _ _ _ => true
  | _ => false
  end.

(** A call that allocates, maps, marks or unmaps a shared-memory segment, on
    the client or on the server side. *)
Definition is_shm_operation (c : XCall) : bool :=
  match c with
  | EvShmget _ | EvShmat _ | EvShmctlRmid _
  | EvShmAttach | EvShmGetImage _ _ _ | EvShmDetach | EvShmdt => true
  | _ => false
  end.

(** ** The environment: answers of the display service, the kernel and the heap *)

Record XEnv : Type := mkXEnv {
  env_DISPLAY : option string;        (* getenv("DISPLAY") *)
  open_ok : string → bool;            (* XOpenDisplay returns non-NULL *)
  DisplayWidth : Z;
  DisplayHeight : Z;
  DefaultDepth : Z;
  shm_query : bool;                   (* XShmQueryExtension *)
  shm_create_ok : bool;               (* XShmCreateImage returns non-NULL *)
  stride_of : Z → Z → Z;              (* bytes_per_line for a depth and a width *)
  shmget_id : Z;                      (* shmget: segment id, -1 on failure *)
  shmat_ok : bool;                    (* shmat maps a valid segment *)
  xshm_attach_ok : bool;              (* XShmAttach *)
  xshm_getimage_ok : bool;            (* XShmGetImage *)
  xgetimage_ok : bool;                (* XGetImage returns non-NULL *)
  malloc_ok : Z → bool;               (* malloc of that many bytes succeeds *)
  heap_junk : nat → Z;                (* contents of freshly malloc'ed cells *)
  screen : Z → Z → Z;                 (* root window pixel at absolute (col, row) *)
  new_array_ok : Z → bool             (* NewIntArray of that length succeeds *)
}.

(** No allocator hands out more than [PTRDIFF_MAX] bytes. *)
Definition malloc_sane (e : XEnv) : Prop :=
  ∀ n, PTRDIFF_MAX < n → malloc_ok e n = false.

(** ** The world: the trace and the resources held *)

Record World : Type := mkWorld {
  trace : list XCall;       (* oldest call first *)
  display_open : bool;      (* a connection to the server is open *)
  image_live : bool;        (* an XImage has been created and not destroyed *)
  shm_mapped : bool;        (* the segment is attached to this process *)
  shm_server : bool         (* the segment is attached on the server side *)
}.

Definition world0 : World := mkWorld [] false false false false.

Definition released (s : World) : Prop :=
  display_open s = false ∧ image_live s = false ∧
  shm_mapped s = false ∧ shm_server s = false.

Definition log (c : XCall) (s : World) : World :=
  mkWorld (trace s ++ [c]) (display_open s) (image_live s)
          (shm_mapped s) (shm_server s).
Definition set_display (b : bool) (s : World) : World :=
  mkWorld (trace s) b (image_live s) (shm_mapped s) (shm_server s).
Definition set_image (b : bool) (s : World) : World :=
  mkWorld (trace s) (display_open s) b (shm_mapped s) (shm_server s).
Definition set_mapped (b : bool) (s : World) : World :=
  mkWorld (trace s) (display_open s) (image_live s) b (shm_server s).
Definition set_server (b : bool) (s : World) : World :=
  mkWorld (trace s) (display_open s) (image_live s) (shm_mapped s) b.

(** ** A state monad over the world *)

Definition M (A : Type) : Type := World → A * World.

Definition ret {A} (a : A) : M A := λ s, (a, s).
Definition bind {A B} (m : M A) (f : A → M B) : M B :=
  λ s, let '(a, s') := m s in f a s'.

Notation "x <- m ;; k" := (bind m (λ x, k))
  (at level 100, m at next level, k at level 200, right associativity).
Notation "m >> k" := (bind m (λ _, k))
  (at level 100, k at level 200, right associativity).

(** Issue a call: log it, and keep the resource flag it touches in step with
    its answer. *)
Definition call {A} (c : XCall) (upd : World → World) (a : A) : M A :=
  λ s, (a, upd (log c s)).

(** [if(b) { m }] *)
Definition when (b : bool) (m : M ()) : M () := if b then m else ret ().

(** ** Client-side image objects *)

Record XImage : Type := mkXImage {
  img_width : Z;
  img_height : Z;
  bytes_per_line : Z;
  img_pixels : Z → Z → Z      (* pixel at image-relative (col, row) *)
}.

(** [XGetPixel] reads the client-side copy; it returns [unsigned long]. *)
Definition XGetPixel (img : XImage) (i j : Z) : Z := img_pixels img i j.

(** The pixels the server delivers for an image whose origin is [(x, y)] on
    the root window: only the planes of [plane_mask] are transmitted. *)
Definition served (e : XEnv) (x y plane_mask : Z) : Z → Z → Z :=
  λ i j, Z.land (screen e (x + i) (y + j)) plane_mask.

(** ** The primitives *)

Definition getenv_DISPLAY (e : XEnv) : M (option string) :=
  call EvGetenv id (env_DISPLAY e).

Definition XOpenDisplay (e : XEnv) (name : string) : M bool :=
  call (EvOpenDisplay name)
       (if open_ok e name then set_display true else id) (open_ok e name).

Definition XCloseDisplay : M () :=
  call EvCloseDisplay (set_display false) ().

Definition XShmQueryExtension (e : XEnv) : M bool :=
  call EvShmQueryExtension id (shm_query e).

(** The image is created without data; its [height] field is an [int]. *)
Definition XShmCreateImage (e : XEnv) (depth width height : Z)
  : M (option XImage) :=
  call (EvShmCreateImage depth width height)
       (if shm_create_ok e then set_image true else id)
       (if shm_create_ok e
        then Some (mkXImage width (to_int32 height)
                            (stride_of e depth width) (λ _ _, 0))
        else None).

Definition shmget (e : XEnv) (size : Z) : M Z :=
  call (EvShmget size) id (shmget_id e).

(** [true] when the segment was mapped, [false] for [(void* )-1]; an invalid
    segment id is never mapped. *)
Definition shmat (e : XEnv) (shmid : Z) : M bool :=
  let ok := negb (shmid =? -1) && shmat_ok e in
  call (EvShmat shmid) (if ok then set_mapped true else id) ok.

Definition shmctl_IPC_RMID (shmid : Z) : M () :=
  call (EvShmctlRmid shmid) id ().

Definition XShmAttach (e : XEnv) : M bool :=
  call EvShmAttach
       (if xshm_attach_ok e then set_server true else id) (xshm_attach_ok e).

(** On success the server has filled the image through the segment. *)
Definition XShmGetImage (e : XEnv) (img : XImage) (x y plane_mask : Z)
  : M (option XImage) :=
  call (EvShmGetImage x y plane_mask) id
       (if xshm_getimage_ok e
        then Some (mkXImage (img_width img) (img_height img)
                            (bytes_per_line img) (served e x y plane_mask))
        else None).

Definition XGetImage (e : XEnv) (x y width height plane_mask : Z)
  : M (option XImage) :=
  call (EvGetImage x y width height plane_mask)
       (if xgetimage_ok e then set_image true else id)
       (if xgetimage_ok e
        then Some (mkXImage width (to_int32 height)
                            (stride_of e (DefaultDepth e) width)
                            (served e x y plane_mask))
        else None).

Definition XShmDetach : M () := call EvShmDetach (set_server false) ().
Definition shmdt : M () := call EvShmdt (set_mapped false) ().
Definition XDestroyImage : M () := call EvDestroyImage (set_image false) ().

(** [malloc]: on success, [bytes / 4] cells of [int32_t] with unspecified
    contents. *)
Definition fresh_cells (e : XEnv) (bytes : Z) : list Z :=
  heap_junk e <$> seq 0 (Z.to_nat (bytes / 4)).

Definition malloc (e : XEnv) (bytes : Z) : M (option (list Z)) :=
  call (EvMalloc bytes) id
       (if malloc_ok e bytes then Some (fresh_cells e bytes) else None).

(** ** Conversion to ARGB *)

Definition ALL_PLANES : Z := 0xffffffff.

(** [pixel = (uint32_t)XGetPixel(...); pixel |= 0xff000000;] and the store of
    the result into an [int32_t] cell. *)
Definition argb (native : Z) : Z :=
  to_int32 (Z.lor (to_uint32 native) 0xff000000).

(** [data[off++] = v].  The state is the buffer and [off]; [None] records a
    store past the end of the buffer, after which nothing is defined.  [off]
    is a [size_t] that stays below the number of cells, so it never wraps. *)
Definition store (st : option (list Z * Z)) (v : Z) : option (list Z * Z) :=
  match st with
  | None => None
  | Some (data, off) =>
      if bool_decide (off < Z.of_nat (length data))
      then Some (<[Z.to_nat off := v]> data, off + 1)
      else None
  end.

(** [for(i = 0 ; i < w ; i++)] for row [j]. *)
Definition convert_row (img : XImage) (w j : Z) (st : option (list Z * Z))
  : option (list Z * Z) :=
  foldl (λ st i, store st (argb (XGetPixel img i j))) st (seqZ 0 w).

(** [for(j = 0 ; j < h ; j++)], starting with [off = 0]. *)
Definition convert (img : XImage) (w h : Z) (data : list Z)
  : option (list Z * Z) :=
  foldl (λ st j, convert_row img w j st) (Some (data, 0)) (seqZ 0 h).

(** ** The capture routine *)

Inductive result : Type :=
| NULL                        (* the failure signal *)
| Buffer (data : list Z)      (* the malloc'ed pixel buffer *)
| Overrun.                    (* the conversion wrote past the buffer *)

Definition x11_grab_screen (e : XEnv) (x11display : option string)
    (x y w h : Z) : M result :=
  display_str <- match x11display with
                | Some s => ret (Some s)
                | None => getenv_DISPLAY e
                end ;;
  match display_str with
  | None => ret NULL
  | Some display_str =>
    display <- XOpenDisplay e display_str ;;
    if negb display then ret NULL else
    let width := DisplayWidth e in
    let height := DisplayHeight e in
    let depth := DefaultDepth e in
    (* check that user-defined parameters are in image *)
    if (add32 w x >? width) || (add32 h y >? height)
    then XCloseDisplay >> ret NULL
    else
    let size := to_size_t (mul32 w h) in
    shm_support <- XShmQueryExtension e ;;
    (* [None]: the branch has cleaned up and returned NULL *)
    grabbed <-
      (if shm_support then
         img <- XShmCreateImage e depth (to_uint32 w) (to_uint32 h) ;;
         match img with
         | None => XCloseDisplay >> ret None
         | Some img =>
           shmid <- shmget e
             (to_size_t (mul32 (bytes_per_line img) (img_height img))) ;;
           shmaddr <- shmat e shmid ;;
           shmctl_IPC_RMID shmid >>
           failed <- (if negb shmaddr then ret true
                     else attached <- XShmAttach e ;; ret (negb attached)) ;;
           if failed then XCloseDisplay >> ret None
           else
           filled <- XShmGetImage e img x y ALL_PLANES ;;
           match filled with
           | None => XShmDetach >> shmdt >> XCloseDisplay >> ret None
           | Some img => ret (Some img)
           end
         end
       else
         img <- XGetImage e x y (to_uint32 w) (to_uint32 h) ALL_PLANES ;;
         match img with
         | None => XCloseDisplay >> ret None
         | Some img => ret (Some img)
         end) ;;
    match grabbed with
    | None => ret NULL
    | Some img =>
      data <- malloc e (to_size_t (4 * size)) ;;
      match data with
      | None =>
        XDestroyImage >>
        when shm_support (XShmDetach >> shmdt) >>
        XCloseDisplay >>
        ret NULL
      | Some data =>
        (* convert to Java ARGB *)
        match convert img w h data with
        | None => ret Overrun
        | Some (data, _) =>
          (* free X11 resources and close display *)
          XDestroyImage >>
          when shm_support (XShmDetach >> shmdt) >>
          XCloseDisplay >>
          ret (Buffer data)
        end
      end
    end
  end.

(** ** The JNI entry point *)

Inductive jresult : Type :=
| JNull                        (* a null reference *)
| JArray (elems : list Z)      (* the Java [int[]] handed to the caller *)
| JCrash.                      (* memory was read or written out of bounds *)

(** A fresh Java array is zero-filled; a negative length or an exhausted
    heap yields NULL. *)
Definition NewIntArray (e : XEnv) (len : Z) : M (option (list Z)) :=
  call (EvNewIntArray len) id
       (if (0 <=? len) && new_array_ok e len
        then Some (replicate (Z.to_nat len) 0)
        else None).

(** Copies [len] elements of [buf] into the array from [start] on.  Arrays
    are values here, so the call yields what the reference [ret] of the
    caller denotes afterwards.  On a null reference nothing is copied and
    the reference stays null; a region outside the array raises an
    exception and copies nothing; reading past the native buffer is not
    defined. *)
Definition SetIntArrayRegion (arr : option (list Z)) (start len : Z)
    (buf : list Z) : M jresult :=
  call (EvSetIntArrayRegion start len) id
       (match arr with
        | None => JNull
        | Some a =>
            if (0 <=? start) && (0 <=? len)
               && (start + len <=? Z.of_nat (length a))
            then
              if len <=? Z.of_nat (length buf)
              then JArray (take (Z.to_nat start) a
                             ++ take (Z.to_nat len) buf
                             ++ drop (Z.to_nat (start + len)) a)
              else JCrash
            else JArray a
        end).

Definition free : M () := call EvFree id ().

Definition Java_net_java_sip_communicator_impl_neomedia_imgstreaming_UnixScreenCapture_grabScreen
    (e : XEnv) (x y width height : Z) : M jresult :=
  let size := to_size_t (mul32 width height) in
  data <- x11_grab_screen e None x y width height ;;
  match data with
  | NULL => ret JNull
  | Overrun => ret JCrash
  | Buffer data =>
    arr <- NewIntArray e (to_int32 size) ;;
    (* updates array with data's content; [r] is [ret] after the call *)
    r <- SetIntArrayRegion arr 0 (to_int32 size) data ;;
    free >>
    ret r
  end.

(** * Vocabulary of the statements *)

(** The values the loops store, in the order they store them. *)
Definition row_pixels (img : XImage) (w j : Z) : list Z :=
  (λ i, argb (XGetPixel img i j)) <$> seqZ 0 w.
Definition all_pixels (img : XImage) (w h : Z) : list Z :=
  mjoin (row_pixels img w <$> seqZ 0 h).

(** The display name the routine connects to. *)
Definition resolve (e : XEnv) (x11display : option string) : option string :=
  match x11display with
  | Some s => Some s
  | None => env_DISPLAY e
  end.

(** A name is resolved and the server accepts the connection. *)
Definition connects (e : XEnv) (x11display : option string) : Prop :=
  ∃ d, resolve e x11display = Some d ∧ open_ok e d = true.

(** The region passes the check of the routine. *)
Definition in_bounds (e : XEnv) (x y w h : Z) : bool :=
  negb ((add32 w x >? DisplayWidth e) || (add32 h y >? DisplayHeight e)).

(** The calls made to find the display name. *)
Definition resolve_calls (x11display : option string) : list XCall :=
  match x11display with
  | Some _ => []
  | None => [EvGetenv]
  end.

(** The size in bytes the routine asks [malloc] for. *)
Definition buffer_bytes (w h : Z) : Z := to_size_t (4 * to_size_t (mul32 w h)).

(** The image both capture paths hand to the conversion. *)
Definition captured (e : XEnv) (x y w h : Z) : XImage :=
  mkXImage (to_uint32 w) (to_int32 (to_uint32 h))
           (stride_of e (DefaultDepth e) (to_uint32 w))
           (served e x y ALL_PLANES).

(** Every step up to and including the allocation of the buffer succeeds. *)
Definition all_granted (e : XEnv) (d : string) (x y w h : Z) : bool :=
  open_ok e d && in_bounds e x y w h &&
  (if shm_query e
   then shm_create_ok e && negb (shmget_id e =? -1) && shmat_ok e
        && xshm_attach_ok e && xshm_getimage_ok e
   else xgetimage_ok e) &&
  malloc_ok e (buffer_bytes w h).

(** What the routine returns, read off the answers of the environment. *)
Definition outcome_of (e : XEnv) (x11display : option string) (x y w h : Z)
  : result :=
  match resolve e x11display with
  | None => NULL
  | Some d =>
      if all_granted e d x y w h then
        match convert (captured e x y w h) w h
                (fresh_cells e (buffer_bytes w h)) with
        | None => Overrun
        | Some (data, _) => Buffer data
        end
      else NULL
  end.

(** Two environments give the same answers to every call of the routine:
    the same name, the same screen size, and success or failure alike for
    each call.  The segment ids, the depth, the stride of the image and the
    contents of the heap may differ. *)
Record same_answers (e1 e2 : XEnv) : Prop := {
  sa_DISPLAY : env_DISPLAY e1 = env_DISPLAY e2;
  sa_open : ∀ d, open_ok e1 d = open_ok e2 d;
  sa_width : DisplayWidth e1 = DisplayWidth e2;
  sa_height : DisplayHeight e1 = DisplayHeight e2;
  sa_shm_query : shm_query e1 = shm_query e2;
  sa_shm_create : shm_create_ok e1 = shm_create_ok e2;
  sa_shmget : (shmget_id e1 =? -1) = (shmget_id e2 =? -1);
  sa_shmat : shmat_ok e1 = shmat_ok e2;
  sa_xshm_attach : xshm_attach_ok e1 = xshm_attach_ok e2;
  sa_xshm_getimage : xshm_getimage_ok e1 = xshm_getimage_ok e2;
  sa_xgetimage : xgetimage_ok e1 = xgetimage_ok e2;
  sa_malloc : ∀ n, malloc_ok e1 n = malloc_ok e2 n
}.

(** Two invocations end alike: both with the failure signal, or both with
    the same buffer. *)
Definition same_outcome (r1 r2 : result) : Prop :=
  (r1 = NULL ∧ r2 = NULL) ∨ ∃ buf, r1 = Buffer buf ∧ r2 = Buffer buf.

(** ** A mock display service

    A 10 x 10 screen at depth 24 whose pixel at [(a, b)] carries a marker
    above bit 31; the heap grants at most 4096 bytes and its fresh cells
    are not zero. *)

Definition mock (display : option string)
    (shm create attach getimage : bool) : XEnv :=
  {| env_DISPLAY := display; open_ok := λ _, true;
     DisplayWidth := 10; DisplayHeight := 10; DefaultDepth := 24;
     shm_query := shm; shm_create_ok := create;
     stride_of := λ _ width, 4 * width;
     shmget_id := 7; shmat_ok := true; xshm_attach_ok := attach;
     xshm_getimage_ok := getimage; xgetimage_ok := true;
     malloc_ok := λ n, n <=? 4096;
     heap_junk := λ k, 0xdead + Z.of_nat k;
     screen := λ a b, 0x500000000 + 0x010203 + 16 * a + 256 * b;
     new_array_ok := λ _, true |}.

Definition DISPLAY0 : option string := Some ":0.0"%string.

(** The mock service with other heap contents, another depth, another
    image stride and another segment id; it cannot create Java arrays. *)
Definition mock_other : XEnv :=
  {| env_DISPLAY := DISPLAY0; open_ok := λ _, true;
     DisplayWidth := 10; DisplayHeight := 10; DefaultDepth := 32;
     shm_query := true; shm_create_ok := true;
     stride_of := λ _ width, 8 * width;
     shmget_id := 9; shmat_ok := true; xshm_attach_ok := true;
     xshm_getimage_ok := true; xgetimage_ok := true;
     malloc_ok := λ n, n <=? 4096;
     heap_junk := λ _, 0;
     screen := λ a b, 0x500000000 + 0x010203 + 16 * a + 256 * b;
     new_array_ok := λ _, false |}.

(** ** Call sequences

    The calls of a capture that gets as far as the allocation of the
    buffer, in the order the routine issues them. *)

(** Every step before the allocation of the buffer succeeds. *)
Definition capture_granted (e : XEnv) (d : string) (x y w h : Z) : bool :=
  open_ok e d && in_bounds e x y w h &&
  (if shm_query e
   then shm_create_ok e && negb (shmget_id e =? -1) && shmat_ok e
        && xshm_attach_ok e && xshm_getimage_ok e
   else xgetimage_ok e).

(** The calls that obtain the image, on the fast path or on the fallback. *)
Definition capture_calls (e : XEnv) (x y w h : Z) : list XCall :=
  if shm_query e then
    [EvShmCreateImage (DefaultDepth e) (to_uint32 w) (to_uint32 h);
     EvShmget (to_size_t (mul32 (stride_of e (DefaultDepth e) (to_uint32 w))
                                (to_int32 (to_uint32 h))));
     EvShmat (shmget_id e); EvShmctlRmid (shmget_id e);
     EvShmAttach; EvShmGetImage x y ALL_PLANES]
  else
    [EvGetImage x y (to_uint32 w) (to_uint32 h) ALL_PLANES].

(** The calls that give everything back. *)
Definition release_calls (shm : bool) : list XCall :=
  [EvDestroyImage] ++ (if shm then [EvShmDetach; EvShmdt] else [])
    ++ [EvCloseDisplay].

(** All the calls of a capture that reaches [malloc]. *)
Definition full_calls (e : XEnv) (x11display : option string) (d : string)
    (x y w h : Z) : list XCall :=
  resolve_calls x11display ++ [EvOpenDisplay d; EvShmQueryExtension]
    ++ capture_calls e x y w h ++ [EvMalloc (buffer_bytes w h)]
    ++ release_calls (shm_query e).

(** The length the entry point passes to [NewIntArray] and to
    [SetIntArrayRegion]. *)
Definition array_length (width height : Z) : Z :=
  to_int32 (to_size_t (mul32 width height)).

(** A second mock service, without shared memory: the server may be down
    and may refuse [XGetImage]. *)
Definition mock_fallback (up getimage : bool) : XEnv :=
  {| env_DISPLAY := DISPLAY0; open_ok := λ _, up;
     DisplayWidth := 10; DisplayHeight := 10; DefaultDepth := 24;
     shm_query := false; shm_create_ok := false;
     stride_of := λ _ width, 4 * width;
     shmget_id := -1; shmat_ok := false; xshm_attach_ok := false;
     xshm_getimage_ok := false; xgetimage_ok := getimage;
     malloc_ok := λ n, n <=? 4096;
     heap_junk := λ k, 0xdead + Z.of_nat k;
     screen := λ a b, 0x500000000 + 0x010203 + 16 * a + 256 * b;
     new_array_ok := λ _, true |}.

(** * Proof tools *)

Global Arguments to_int32 : simpl never.
Global Arguments to_uint32 : simpl never.
Global Arguments to_size_t : simpl never.
Global Arguments add32 : simpl never.
Global Arguments mul32 : simpl never.
Global Arguments argb : simpl never.
Global Arguments convert : simpl never.
Global Arguments served : simpl never.
Global Arguments fresh_cells : simpl never.
Global Arguments buffer_bytes : simpl never.

Ltac grab_unfold :=
  unfold Java_net_java_sip_communicator_impl_neomedia_imgstreaming_UnixScreenCapture_grabScreen,
    x11_grab_screen, bind, ret, when, getenv_DISPLAY, XOpenDisplay,
    XCloseDisplay, XShmQueryExtension, XShmCreateImage, shmget, shmat,
    shmctl_IPC_RMID, XShmAttach, XShmGetImage, XGetImage, XShmDetach, shmdt,
    XDestroyImage, malloc, NewIntArray, SetIntArrayRegion, free, call in *.

(** Split on the innermost answer that decides the next branch. *)
Ltac innermost b :=
  lazymatch b with
  | context [match _ with _ => _ end] => fail
  | _ => idtac
  end.

Ltac grab_case :=
  match goal with
  | H : context [match ?b with _ => _ end] |- _ =>
      innermost b; destruct b eqn:?
  | |- context [match ?b with _ => _ end] =>
      innermost b; destruct b eqn:?
  end.

Ltac grab_cases :=
  grab_unfold; repeat (simpl in *; simplify_eq; try grab_case).

(** Membership in a concrete trace. *)
Ltac in_trace := repeat first [apply list_elem_of_here | apply list_elem_of_further].

(** A property of every call of a concrete trace. *)
Ltac each_call :=
  let c := fresh "c" in
  let Hin := fresh "Hin" in
  intros c Hin;
  repeat (apply elem_of_cons in Hin as [->|Hin]; [done|]);
  by apply elem_of_nil in Hin.

(** A call that does not occur in a concrete trace. *)
Ltac not_in_trace :=
  let Hin := fresh "Hin" in
  intros Hin;
  repeat (apply elem_of_cons in Hin as [?|Hin]; [done|]);
  by apply elem_of_nil in Hin.

(** Which call of a concrete trace a given call is. *)
Ltac pick_call Hin :=
  repeat (apply elem_of_cons in Hin as [Hin|Hin];
          [try discriminate Hin; simplify_eq|]);
  try (by apply elem_of_nil in Hin).

(** * Lemmas *)

(** ** Integer conversions *)

Lemma to_int32_range z : in_int32 (to_int32 z).
Proof.
  unfold in_int32, to_int32, INT32_MIN, INT32_MAX.
  pose proof (Z.mod_pos_bound (z + 2 ^ 31) (2 ^ 32)). lia.
Qed.

Lemma to_int32_id z : in_int32 z → to_int32 z = z.
Proof.
  unfold in_int32, to_int32, INT32_MIN, INT32_MAX. intros Hz.
  rewrite Z.mod_small; lia.
Qed.

Lemma to_uint32_to_int32 z : to_uint32 (to_int32 z) = to_uint32 z.
Proof.
  unfold to_uint32, to_int32.
  rewrite Zminus_mod_idemp_l. f_equal. lia.
Qed.

Lemma to_uint32_range z : 0 <= to_uint32 z < 2 ^ 32.
Proof. unfold to_uint32. apply Z.mod_pos_bound. lia. Qed.

Lemma to_uint32_id z : 0 <= z < 2 ^ 32 → to_uint32 z = z.
Proof. unfold to_uint32. intros. by rewrite Z.mod_small. Qed.

(** A wrapped value never exceeds a positive exact one. *)
Lemma to_int32_le_pos z : 0 <= z → to_int32 z <= z.
Proof.
  unfold to_int32. intros Hz.
  pose proof (Z.mod_le (z + 2 ^ 31) (2 ^ 32)). lia.
Qed.

Lemma to_size_t_id z : 0 <= z < 2 ^ 64 → to_size_t z = z.
Proof. unfold to_size_t. intros. by rewrite Z.mod_small. Qed.

(** Sign extension of a negative [int] to [size_t]. *)
Lemma to_size_t_neg z : - 2 ^ 64 <= z < 0 → to_size_t z = z + 2 ^ 64.
Proof.
  unfold to_size_t. intros Hz.
  rewrite <- (Z.mod_small (z + 2 ^ 64) (2 ^ 64)) by lia.
  rewrite <- (Z_mod_plus_full z 1 (2 ^ 64)). f_equal; lia.
Qed.

Lemma lor_mod_pow2_32 a : Z.lor (a mod 2 ^ 32) 0xff000000
                          = Z.lor a 0xff000000 mod 2 ^ 32.
Proof.
  rewrite <- !Z.land_ones by lia.
  rewrite Z.land_lor_distr_l. f_equal.
Qed.

Lemma lor_255 v : 0 <= v < 256 → Z.lor v 255 = 255.
Proof.
  intros Hv. apply Z.bits_inj'. intros n Hn. rewrite Z.lor_spec.
  destruct (decide (n < 8)) as [Hlt|Hge].
  - assert (Hb : Z.testbit 255 n = true).
    { change 255 with (Z.ones 8). apply Z.ones_spec_low. lia. }
    rewrite Hb. apply orb_true_r.
  - assert (Hb : Z.testbit 255 n = false).
    { change 255 with (Z.ones 8). apply Z.ones_spec_high. lia. }
    rewrite Hb, orb_false_r.
    destruct (decide (v = 0)) as [->|Hnz]; [apply Z.bits_0|].
    apply Z.bits_above_log2; [lia|].
    assert (Z.log2 v < 8) by (apply Z.log2_lt_pow2; lia). lia.
Qed.

(** ** The ARGB conversion of one pixel *)

(** The stored cell, read as a 32-bit pattern, is the truncated native
    value with the alpha byte set. *)
Lemma argb_pattern p :
  to_uint32 (argb p) = Z.lor (p mod 2 ^ 32) 0xff000000.
Proof.
  unfold argb. rewrite to_uint32_to_int32. unfold to_uint32.
  rewrite lor_mod_pow2_32. apply Z.mod_mod. lia.
Qed.

Lemma argb_alpha p : Z.shiftr (to_uint32 (argb p)) 24 = 0xff.
Proof.
  rewrite argb_pattern, Z.shiftr_lor.
  change (Z.shiftr 0xff000000 24) with 255.
  apply lor_255. rewrite Z.shiftr_div_pow2 by lia.
  pose proof (Z.mod_pos_bound p (2 ^ 32)).
  split; [apply Z.div_pos; lia|].
  apply Z.div_lt_upper_bound; lia.
Qed.

(** Bits 32 and above of the native value are dropped. *)
Lemma argb_high_bits p k : argb (p + k * 2 ^ 32) = argb p.
Proof. unfold argb, to_uint32. by rewrite Z_mod_plus_full. Qed.

Lemma argb_int32 p : in_int32 (argb p).
Proof. apply to_int32_range. Qed.

(** ** The conversion loops *)

Lemma store_None vs : foldl store None vs = None.
Proof. by induction vs. Qed.

(** Sequential stores behind a written prefix [pre]. *)
Lemma store_seq vs : ∀ pre rest,
  foldl store (Some (pre ++ rest, Z.of_nat (length pre))) vs =
    if bool_decide (length vs ≤ length rest)%nat
    then Some (pre ++ vs ++ drop (length vs) rest,
               Z.of_nat (length pre + length vs))
    else None.
Proof.
  induction vs as [|v vs IH]; intros pre rest.
  - simpl. by rewrite Nat.add_0_r.
  - destruct rest as [|r rest].
    + cbn [foldl store]. rewrite app_nil_r, bool_decide_false by lia.
      rewrite bool_decide_false by (simpl; lia). apply store_None.
    + cbn [foldl store].
      rewrite bool_decide_true by (rewrite length_app; simpl; lia).
      rewrite Nat2Z.id.
      replace (<[length pre:=v]> (pre ++ r :: rest))
        with ((pre ++ [v]) ++ rest).
      2:{ rewrite insert_app_r_alt, Nat.sub_diag by lia.
          simpl. by rewrite <- app_assoc. }
      replace (Z.of_nat (length pre) + 1)
        with (Z.of_nat (length (pre ++ [v])))
        by (rewrite length_app; simpl; lia).
      rewrite IH, length_app. simpl.
      destruct (bool_decide (length vs ≤ length rest)%nat) eqn:Hd.
      * apply bool_decide_eq_true in Hd.
        rewrite bool_decide_true by lia.
        rewrite <- app_assoc. simpl. do 3 f_equal. lia.
      * apply bool_decide_eq_false in Hd.
        by rewrite bool_decide_false by lia.
Qed.

Lemma length_row_pixels img w j : length (row_pixels img w j) = Z.to_nat w.
Proof. unfold row_pixels. by rewrite length_fmap, length_seqZ. Qed.

Lemma length_all_pixels img w h :
  length (all_pixels img w h) = (Z.to_nat h * Z.to_nat w)%nat.
Proof.
  unfold all_pixels. rewrite length_join, <- list_fmap_compose.
  rewrite (sum_list_fmap_same (Z.to_nat w)).
  - by rewrite length_seqZ.
  - apply Forall_forall. intros j _. apply length_row_pixels.
Qed.

Lemma lookup_all_pixels img w h i j :
  0 <= j < h → 0 <= i < w →
  all_pixels img w h !! Z.to_nat (j * w + i)
    = Some (argb (XGetPixel img i j)).
Proof.
  intros Hj Hi. unfold all_pixels.
  replace (Z.to_nat (j * w + i))
    with (Z.to_nat j * Z.to_nat w + Z.to_nat i)%nat by nia.
  apply (join_lookup_Some_same_length' (Z.to_nat w)).
  - apply Forall_fmap, Forall_forall. intros j' _. apply length_row_pixels.
  - lia.
  - exists (row_pixels img w j). split.
    + rewrite list_lookup_fmap, lookup_seqZ_lt by lia.
      simpl. do 2 f_equal. lia.
    + unfold row_pixels.
      rewrite list_lookup_fmap, lookup_seqZ_lt by lia.
      simpl. do 3 f_equal. lia.
Qed.

(** The pixel list only depends on the image through the pixels of the
    region. *)
Lemma all_pixels_ext img1 img2 w h :
  (∀ i j, 0 <= i < w → 0 <= j < h →
          XGetPixel img1 i j = XGetPixel img2 i j) →
  all_pixels img1 w h = all_pixels img2 w h.
Proof.
  intros Hext. unfold all_pixels. f_equal.
  apply list_fmap_ext. intros k j Hk%lookup_seqZ.
  unfold row_pixels. apply list_fmap_ext. intros k' i Hk'%lookup_seqZ.
  f_equal. apply Hext; lia.
Qed.

Lemma convert_row_stores img w j st :
  convert_row img w j st = foldl store st (row_pixels img w j).
Proof. unfold convert_row, row_pixels. by rewrite foldl_fmap. Qed.

Lemma convert_rows_stores img w rows : ∀ st,
  foldl (λ st j, convert_row img w j st) st rows
    = foldl store st (mjoin (row_pixels img w <$> rows)).
Proof.
  induction rows as [|j rows IH]; intros st; [done|].
  cbn [foldl fmap list_fmap mjoin list_join].
  by rewrite foldl_app, IH, convert_row_stores.
Qed.

Lemma convert_stores img w h data :
  convert img w h data = foldl store (Some (data, 0)) (all_pixels img w h).
Proof. apply convert_rows_stores. Qed.

(** What the two loops leave in the buffer. *)
Lemma convert_spec img w h data :
  convert img w h data =
    if bool_decide (Z.to_nat h * Z.to_nat w ≤ length data)%nat
    then Some (all_pixels img w h ++ drop (Z.to_nat h * Z.to_nat w) data,
               Z.of_nat (Z.to_nat h * Z.to_nat w))
    else None.
Proof.
  rewrite convert_stores.
  change (Some (data, 0)) with (Some ([] ++ data, Z.of_nat (@length Z []))).
  rewrite store_seq, length_all_pixels. done.
Qed.

(** ** Walking through the paths of the routine *)

Lemma in_bounds_exact e x y w h :
  in_int32 (w + x) → in_int32 (h + y) →
  in_bounds e x y w h = true ↔
    w + x <= DisplayWidth e ∧ h + y <= DisplayHeight e.
Proof.
  intros Hx Hy. unfold in_bounds, add32.
  rewrite !to_int32_id by done.
  rewrite negb_true_iff, orb_false_iff, !Z.gtb_ltb, !Z.ltb_ge. done.
Qed.

(** The routine returns what [outcome_of] reads off the answers, whatever
    the world it starts in. *)
Lemma grab_outcome e name x y w h s0 :
  (x11_grab_screen e name x y w h s0).1 = outcome_of e name x y w h.
Proof.
  unfold outcome_of, all_granted, in_bounds, resolve, captured, buffer_bytes.
  destruct name as [d|]; [|destruct (env_DISPLAY e) as [d|] eqn:Hd];
    grab_unfold; simpl; rewrite ?Hd; simpl; [| |done];
    (destruct (open_ok e d); simpl; [|done]);
    (destruct (_ || _); simpl; [done|]);
    (destruct (shm_query e); simpl;
     [ destruct (shm_create_ok e); simpl; [|done];
       destruct (shmget_id e =? -1); simpl; [done|];
       destruct (shmat_ok e); simpl; [|done];
       destruct (xshm_attach_ok e); simpl; [|done];
       destruct (xshm_getimage_ok e); simpl; [|done]
     | destruct (xgetimage_ok e); simpl; [|done] ]);
    (destruct (malloc_ok e _); simpl; [|done]);
    by destruct (convert _ _ _ _) as [[? ?]|].
Qed.

Section Success.

Context (e : XEnv) (name : option string) (x y w h : Z).
Context (s0 s : World) (buf : list Z).
Hypothesis Hgrab : x11_grab_screen e name x y w h s0 = (Buffer buf, s).

(** A returned buffer is the freshly allocated one after the conversion of
    the captured image. *)
Lemma grab_Buffer_inv :
  malloc_ok e (buffer_bytes w h) = true ∧
  ∃ off, convert (captured e x y w h) w h (fresh_cells e (buffer_bytes w h))
           = Some (buf, off).
Proof.
  pose proof (grab_outcome e name x y w h s0) as Ho.
  rewrite Hgrab in Ho. simpl in Ho. unfold outcome_of in Ho.
  destruct (resolve e name) as [d|]; [|done].
  destruct (all_granted e d x y w h) eqn:Hg; [|done].
  split.
  - unfold all_granted in Hg. by apply andb_true_iff in Hg as [_ ?].
  - destruct (convert _ _ _ _) as [[data off]|]; [|done].
    exists off. by simplify_eq.
Qed.

(** Its contents: the converted pixels in row-major order, followed by the
    cells the loops did not reach. *)
Lemma grab_Buffer_contents :
  let n := (Z.to_nat h * Z.to_nat w)%nat in
  (n ≤ length (fresh_cells e (buffer_bytes w h)))%nat ∧
  buf = all_pixels (captured e x y w h) w h
          ++ drop n (fresh_cells e (buffer_bytes w h)).
Proof.
  destruct grab_Buffer_inv as (_ & off & Hconv).
  rewrite convert_spec in Hconv. case_bool_decide; [|done].
  by simplify_eq.
Qed.

End Success.

(** Unless the conversion overran the buffer, the routine returns with
    the connection closed. *)
Lemma grab_closes_display e name x y w h r s :
  x11_grab_screen e name x y w h world0 = (r, s) →
  r ≠ Overrun → display_open s = false.
Proof. intros H Hr. grab_cases; done. Qed.

(** A region that fails the check is rejected right after the geometry is
    known: the only call after the connection is its closing. *)
Lemma validation_rejects e d name x y w h :
  resolve e name = Some d → open_ok e d = true →
  in_bounds e x y w h = false →
  x11_grab_screen e name x y w h world0
    = (NULL, mkWorld (resolve_calls name ++ [EvOpenDisplay d; EvCloseDisplay])
                     false false false false).
Proof.
  unfold in_bounds, resolve. intros Hd Ho Hb%negb_false_iff.
  destruct name; simplify_eq; grab_unfold; simpl;
    rewrite ?Hd, Ho, Hb; done.
Qed.

(** ** Sizes within the contract *)

Section Contract.

Context (e : XEnv) (w h : Z).
Hypothesis Hw : 0 <= w.
Hypothesis Hh : 0 <= h.
Hypothesis Hsane : malloc_sane e.

(** A granted allocation that is large enough for the loops has exactly
    [w * h] cells, and the product did not wrap. *)
Lemma slots_exact :
  malloc_ok e (buffer_bytes w h) = true →
  (Z.to_nat h * Z.to_nat w ≤ length (fresh_cells e (buffer_bytes w h)))%nat →
  length (fresh_cells e (buffer_bytes w h)) = (Z.to_nat h * Z.to_nat w)%nat ∧
  mul32 w h = w * h.
Proof.
  unfold buffer_bytes, fresh_cells. rewrite length_fmap, length_seq.
  intros Hok Hfit.
  pose proof (to_int32_range (w * h)) as Hr.
  pose proof (to_int32_le_pos (w * h) ltac:(nia)) as Hle.
  unfold in_int32, INT32_MIN, INT32_MAX in Hr. fold (mul32 w h) in Hr, Hle.
  destruct (decide (mul32 w h < 0)) as [Hneg|Hpos].
  - exfalso. rewrite (to_size_t_neg (mul32 w h)) in Hok by lia.
    replace (4 * (mul32 w h + 2 ^ 64))
      with (4 * mul32 w h + 2 ^ 64 + 3 * 2 ^ 64) in Hok by lia.
    unfold to_size_t in Hok.
    rewrite Z_mod_plus_full, Z.mod_small in Hok by lia.
    rewrite Hsane in Hok; [done|]. unfold PTRDIFF_MAX. lia.
  - rewrite (to_size_t_id (mul32 w h)) in * by lia.
    rewrite (to_size_t_id (4 * _)) in * by lia.
    replace (4 * mul32 w h) with (mul32 w h * 4) in * by lia.
    rewrite Z.div_mul in * by lia. split; lia.
Qed.

(** A returned buffer holds the converted pixels and nothing else. *)
Lemma contract_buffer name x y s0 buf s :
  x11_grab_screen e name x y w h s0 = (Buffer buf, s) →
  buf = all_pixels (captured e x y w h) w h ∧
  Z.of_nat (length buf) = w * h ∧
  mul32 w h = w * h.
Proof.
  intros Hgrab.
  destruct (grab_Buffer_inv _ _ _ _ _ _ _ _ _ Hgrab) as [Hok _].
  destruct (grab_Buffer_contents _ _ _ _ _ _ _ _ _ Hgrab) as [Hfit ->].
  destruct (slots_exact Hok Hfit) as [Hl Hm].
  rewrite drop_ge, app_nil_r, length_all_pixels by lia.
  split; [done|]. split; [lia|done].
Qed.

End Contract.

(** ** The pixel count and the cells of the buffer *)

Lemma mul32_exact w h : in_int32 (w * h) → mul32 w h = w * h.
Proof. apply to_int32_id. Qed.

(** A non-negative pixel count is the number of cells of the buffer. *)
Lemma buffer_cells_nonneg e w h :
  0 <= mul32 w h →
  length (fresh_cells e (buffer_bytes w h)) = Z.to_nat (mul32 w h).
Proof.
  intros Hm. pose proof (to_int32_range (w * h)) as Hr.
  fold (mul32 w h) in Hr. unfold in_int32, INT32_MIN, INT32_MAX in Hr.
  unfold fresh_cells, buffer_bytes. rewrite length_fmap, length_seq.
  rewrite (to_size_t_id (mul32 w h)) by lia.
  rewrite to_size_t_id by lia.
  replace (4 * mul32 w h) with (mul32 w h * 4) by lia.
  by rewrite Z.div_mul.
Qed.

(** With a non-negative pixel count below the number of stores, the
    conversion leaves the buffer. *)
Lemma wrapped_count_overruns e d name x y w h s0 :
  resolve e name = Some d →
  all_granted e d x y w h = true →
  0 < w → 0 < h →
  0 <= mul32 w h < w * h →
  (x11_grab_screen e name x y w h s0).1 = Overrun.
Proof.
  intros Hd Hg Hw Hh Hm. rewrite grab_outcome. unfold outcome_of.
  rewrite Hd, Hg, convert_spec.
  rewrite bool_decide_false; [done|].
  rewrite buffer_cells_nonneg by lia. nia.
Qed.

(** ** Environments that show the same pixels *)

Lemma served_ext e1 e2 x y w h :
  (∀ i j, 0 <= i < w → 0 <= j < h →
          screen e1 (x + i) (y + j) = screen e2 (x + i) (y + j)) →
  ∀ i j, 0 <= i < w → 0 <= j < h →
         served e1 x y ALL_PLANES i j = served e2 x y ALL_PLANES i j.
Proof. intros Hs i j Hi Hj. unfold served. by rewrite Hs. Qed.

Lemma captured_pixels_ext e1 e2 x y w h :
  (∀ i j, 0 <= i < w → 0 <= j < h →
          screen e1 (x + i) (y + j) = screen e2 (x + i) (y + j)) →
  all_pixels (captured e1 x y w h) w h = all_pixels (captured e2 x y w h) w h.
Proof.
  intros Hs. apply all_pixels_ext. intros i j Hi Hj.
  unfold captured, XGetPixel. simpl. by apply (served_ext e1 e2 x y w h).
Qed.

Lemma same_answers_granted e1 e2 name x y w h :
  same_answers e1 e2 →
  resolve e1 name = resolve e2 name ∧
  ∀ d, all_granted e1 d x y w h = all_granted e2 d x y w h.
Proof.
  intros [HD Hopen Hwd Hht Hq Hc Hid Hat Hxa Hxg Hg Hm]. split.
  - unfold resolve. by destruct name.
  - intros d. unfold all_granted, in_bounds.
    by rewrite (Hopen d), Hwd, Hht, Hq, Hc, Hid, Hat, Hxa, Hxg, Hg, (Hm _).
Qed.

(** ** What is released, what is refused *)

(** Every exit other than a failure of the shared-memory set-up or of the
    shared-memory capture releases whatever was acquired. *)
Lemma other_exits_release e name x y w h r s :
  x11_grab_screen e name x y w h world0 = (r, s) →
  r ≠ Overrun →
  (∀ p, EvShmget p ∈ trace s → ∃ b, EvMalloc b ∈ trace s) →
  released s.
Proof.
  intros H Hr Hshm. unfold released.
  grab_cases; try done;
    (destruct (Hshm _ ltac:(in_trace)) as [b Hb]; revert Hb; not_in_trace).
Qed.

(** When the two sums are representable in 32 bits, a region that exceeds
    the right or the bottom edge is refused: the failure signal is returned,
    no image request is sent and the connection is closed. *)
Lemma representable_out_of_bounds_rejected e name x y w h :
  in_int32 (w + x) → in_int32 (h + y) →
  x + w > DisplayWidth e ∨ y + h > DisplayHeight e →
  ∃ s, x11_grab_screen e name x y w h world0 = (NULL, s) ∧
       display_open s = false ∧
       (∀ c, c ∈ trace s → is_image_request c = false).
Proof.
  intros Hx Hy Hout.
  assert (Hb : in_bounds e x y w h = false).
  { apply not_true_is_false. rewrite in_bounds_exact by done. lia. }
  destruct (resolve e name) as [d|] eqn:Hd.
  - destruct (open_ok e d) eqn:Ho.
    + rewrite (validation_rejects e d) by done. eexists. split; [done|].
      split; [done|]. destruct name; simpl; each_call.
    + unfold resolve in Hd. destruct name; simplify_eq; grab_unfold; simpl;
        rewrite ?Hd, Ho; simpl; eexists; (split; [done|]); (split; [done|]);
        each_call.
  - unfold resolve in Hd. destruct name; simplify_eq. grab_unfold; simpl.
    rewrite Hd. eexists. split; [done|]. split; [done|]. each_call.
Qed.

(** A region that passes the check, on an open connection, takes the
    routine to the capability probe and to the capture: [XGetImage] without
    shared memory; with it, the creation of the image descriptor and, once
    the segment is set up, [XShmGetImage]. *)
Lemma passed_check_proceeds e name x y w h :
  connects e name →
  in_bounds e x y w h = true →
  ∃ r s, x11_grab_screen e name x y w h world0 = (r, s) ∧
    EvShmQueryExtension ∈ trace s ∧
    (shm_query e = false →
     EvGetImage x y (to_uint32 w) (to_uint32 h) ALL_PLANES ∈ trace s) ∧
    (shm_query e = true →
     EvShmCreateImage (DefaultDepth e) (to_uint32 w) (to_uint32 h) ∈ trace s) ∧
    (shm_query e = true → shm_create_ok e = true → shmget_id e ≠ -1 →
     shmat_ok e = true → xshm_attach_ok e = true →
     EvShmGetImage x y ALL_PLANES ∈ trace s).
Proof.
  intros (d & Hd & Ho) Hb.
  unfold in_bounds in Hb. apply negb_true_iff in Hb.
  destruct (x11_grab_screen e name x y w h world0) as [r s] eqn:H.
  exists r, s. split; [done|].
  unfold resolve in Hd.
  destruct name; simplify_eq; grab_unfold; simpl in H;
    rewrite ?Hd, Ho, Hb in H; grab_cases;
    (split; [in_trace|]); (split; [intros; first [done|in_trace]|]);
    (split; [intros; first [done|in_trace]|]);
    intros ? ? Hid Hat Hxa; simplify_eq; try done; try in_trace;
    try congruence;
    try match goal with
        | Hm : negb (_ =? _) && _ = false |- _ =>
            rewrite Hat, andb_true_r, negb_false_iff, Z.eqb_eq in Hm; done
        end.
Qed.

(** A sum beyond [INT32_MAX] wraps to a negative [int]. *)
Lemma add32_overflow a b :
  in_int32 a → in_int32 b → a + b > INT32_MAX → add32 a b = a + b - 2 ^ 32.
Proof.
  unfold in_int32, INT32_MIN, INT32_MAX, add32, to_int32. intros Ha Hb Hab.
  replace (a + b + 2 ^ 31) with (a + b - 2 ^ 31 + 1 * 2 ^ 32) by lia.
  rewrite Z_mod_plus_full, Z.mod_small by lia. lia.
Qed.

(** ** The mock service *)

Lemma mock_malloc_sane d a b c g : malloc_sane (mock d a b c g).
Proof.
  intros n Hn. simpl. apply Z.leb_gt. unfold PTRDIFF_MAX in Hn. lia.
Qed.

Lemma mock_connects a b c g name : connects (mock DISPLAY0 a b c g) name.
Proof. destruct name as [d|]; [exists d|eexists]; done. Qed.

Lemma mock_other_malloc_sane : malloc_sane mock_other.
Proof.
  intros n Hn. simpl. apply Z.leb_gt. unfold PTRDIFF_MAX in Hn. lia.
Qed.

Lemma mock_same_answers :
  same_answers (mock DISPLAY0 true true true true) mock_other.
Proof. by split. Qed.

(** * The claims *)

(** ** C1: what is still held when the routine returns *)

(** C1.  The routine does not release everything on every exit.  Once the
    image descriptor of the fast path exists, a failure to allocate, map or
    attach the segment, or a failing [XShmGetImage], makes the routine
    return the failure signal with the connection closed but with the image
    never destroyed; and when the segment was mapped and only [XShmAttach]
    failed, the segment stays mapped as well. *)
Theorem fast_path_failure_leaks e d name x y w h :
  resolve e name = Some d → open_ok e d = true →
  in_bounds e x y w h = true →
  shm_query e = true → shm_create_ok e = true →
  shmget_id e = (-1) ∨ shmat_ok e = false ∨
    xshm_attach_ok e = false ∨ xshm_getimage_ok e = false →
  ∃ s, x11_grab_screen e name x y w h world0 = (NULL, s) ∧
       display_open s = false ∧
       image_live s = true ∧ (EvDestroyImage ∉ trace s) ∧
       (shmget_id e ≠ -1 → shmat_ok e = true → xshm_attach_ok e = false →
        shm_mapped s = true ∧ (EvShmdt ∉ trace s)).
Proof.
  unfold in_bounds, resolve. intros Hd Ho Hb%negb_true_iff Hq Hc Hfail.
  destruct (x11_grab_screen e name x y w h world0) as [r s] eqn:H.
  exists s.
  destruct name; simplify_eq; grab_unfold; simpl in H;
    rewrite ?Hd, Ho, Hb, Hq, Hc in H;
    (destruct Hfail as [Hf|[Hf|[Hf|Hf]]];
     rewrite ?Hf, ?andb_false_r in H; grab_cases;
     (split; [done|]); (split; [done|]); (split; [done|]);
     (split; [not_in_trace|]);
     intros Hid Hat Hxa; simplify_eq; try done; try congruence;
     try (split; [done|not_in_trace]);
     try match goal with
         | Hm : negb (_ =? _) && _ = false |- _ =>
             rewrite Hat, andb_true_r, negb_false_iff, Z.eqb_eq in Hm; done
         end).
Qed.

Lemma fast_path_failure_leaks_witness :
  ∃ s, x11_grab_screen (mock DISPLAY0 true true false true) None 0 0 1 1 world0
         = (NULL, s) ∧
       display_open s = false ∧ image_live s = true ∧ shm_mapped s = true.
Proof.
  destruct (fast_path_failure_leaks (mock DISPLAY0 true true false true)
              ":0.0" None 0 0 1 1) as (s & Hs & Hd & Hi & _ & Hm);
    try reflexivity.
  { right. right. left. reflexivity. }
  exists s. split; [exact Hs|]. split; [exact Hd|]. split; [exact Hi|].
  apply Hm; [discriminate|reflexivity|reflexivity].
Defined.

(** ** C2: the contents of the buffer *)

(** C2.  After a successful capture of a [w] by [h] region, the buffer cell
    [j * w + i] holds the native pixel [(i, j)] of the captured image
    truncated to 32 bits with [0xff000000] or-ed in; its top byte is [0xff]
    and it does not depend on the bits of the native value above bit 31. *)
Theorem buffer_entries_are_argb e name x y w h buf s i j :
  x11_grab_screen e name x y w h world0 = (Buffer buf, s) →
  0 <= j < h → 0 <= i < w →
  let native := XGetPixel (captured e x y w h) i j in
  ∃ v, buf !! Z.to_nat (j * w + i) = Some v ∧
       v = argb native ∧
       to_uint32 v = Z.lor (native mod 2 ^ 32) 0xff000000 ∧
       Z.shiftr (to_uint32 v) 24 = 0xff ∧
       (∀ k, argb (native + k * 2 ^ 32) = v).
Proof.
  intros Hgrab Hj Hi native.
  destruct (grab_Buffer_contents _ _ _ _ _ _ _ _ _ Hgrab) as [_ ->].
  exists (argb native). split; [|split; [done|split; [|split]]].
  - rewrite lookup_app_l by (rewrite length_all_pixels; nia).
    by rewrite lookup_all_pixels.
  - apply argb_pattern.
  - apply argb_alpha.
  - intros k. apply argb_high_bits.
Qed.

Lemma buffer_entries_are_argb_witness :
  let native := XGetPixel (captured (mock DISPLAY0 true true true true)
                             1 2 2 2) 0 1 in
  ∃ v, [-16710637; -16710621; -16710381; -16710365] !! Z.to_nat (1 * 2 + 0)
         = Some v ∧
       v = argb native ∧
       to_uint32 v = Z.lor (native mod 2 ^ 32) 0xff000000 ∧
       Z.shiftr (to_uint32 v) 24 = 0xff ∧
       (∀ k, argb (native + k * 2 ^ 32) = v).
Proof.
  eapply (buffer_entries_are_argb (mock DISPLAY0 true true true true)
            None 1 2 2 2); [by vm_compute|lia|lia].
Defined.

(** ** C3: regions beyond the right and bottom edges *)

(** C3.  The check adds in 32 bits.  On a screen of any width, a region
    whose right edge [x + w] lies beyond [INT32_MAX], hence beyond the
    screen, passes the check when its rows fit: the wrapped sum is negative.
    The routine then probes for shared memory and, without it, sends
    [XGetImage] for the region instead of refusing it. *)
Theorem overflowing_region_passes_validation e name x y w h :
  connects e name →
  in_int32 x → in_int32 w →
  0 <= DisplayWidth e <= INT32_MAX →
  x + w > INT32_MAX →
  add32 h y <= DisplayHeight e →
  x + w > DisplayWidth e ∧
  ∃ r s, x11_grab_screen e name x y w h world0 = (r, s) ∧
    EvShmQueryExtension ∈ trace s ∧
    (shm_query e = false →
     EvGetImage x y (to_uint32 w) (to_uint32 h) ALL_PLANES ∈ trace s).
Proof.
  intros Hc Hx Hw Hwidth Hover Hrows. split; [lia|].
  assert (Hb : in_bounds e x y w h = true).
  { unfold in_bounds. rewrite add32_overflow by (done || lia).
    rewrite negb_true_iff, orb_false_iff, !Z.gtb_ltb, !Z.ltb_ge.
    unfold in_int32, INT32_MIN, INT32_MAX in *. lia. }
  destruct (passed_check_proceeds e name x y w h Hc Hb)
    as (r & s & Hs & Hq & Hg & _).
  by exists r, s.
Qed.

Lemma overflowing_region_passes_validation_witness :
  2147483647 + 1 > DisplayWidth (mock DISPLAY0 false true true true) ∧
  ∃ buf s,
    x11_grab_screen (mock DISPLAY0 false true true true) None
      2147483647 0 1 1 world0 = (Buffer buf, s) ∧
    EvGetImage 2147483647 0 1 1 ALL_PLANES ∈ trace s.
Proof.
  destruct (overflowing_region_passes_validation
              (mock DISPLAY0 false true true true) None 2147483647 0 1 1)
    as (Hout & r & s & Hs & _ & Hg).
  - apply mock_connects.
  - by vm_compute.
  - by vm_compute.
  - by vm_compute.
  - by vm_compute.
  - by vm_compute.
  - split; [exact Hout|].
    assert (Hrun : x11_grab_screen (mock DISPLAY0 false true true true) None
                     2147483647 0 1 1 world0
                   = (Buffer [-16711181],
                      mkWorld [EvGetenv; EvOpenDisplay ":0.0";
                               EvShmQueryExtension;
                               EvGetImage 2147483647 0 1 1 ALL_PLANES;
                               EvMalloc 4; EvDestroyImage; EvCloseDisplay]
                              false false false false))
      by (by vm_compute).
    rewrite Hrun in Hs. injection Hs as <- <-.
    eexists _, _. split; [exact Hrun|]. apply Hg. reflexivity.
Defined.

(** ** C4: the two capture paths fill the buffer alike *)

(** C4.  Take a service that advertises shared memory and one that does
    not, showing the same pixels in the region; nothing else is shared, the
    heaps may hold anything.  For non-negative sizes and allocators that
    refuse requests above [PTRDIFF_MAX], when both captures of the region
    succeed, the first went through [XShmGetImage], the second through
    [XGetImage], and the two buffers are equal cell by cell: each is the
    list of the converted pixels of the region, row by row. *)
Theorem shm_and_fallback_buffers_agree e1 e2 name1 name2 x y w h b1 s1 b2 s2 :
  shm_query e1 = true → shm_query e2 = false →
  (∀ i j, 0 <= i < w → 0 <= j < h →
          screen e1 (x + i) (y + j) = screen e2 (x + i) (y + j)) →
  0 <= w → 0 <= h → malloc_sane e1 → malloc_sane e2 →
  x11_grab_screen e1 name1 x y w h world0 = (Buffer b1, s1) →
  x11_grab_screen e2 name2 x y w h world0 = (Buffer b2, s2) →
  b1 = b2 ∧
  b1 = all_pixels (captured e1 x y w h) w h ∧
  EvShmGetImage x y ALL_PLANES ∈ trace s1 ∧
  EvGetImage x y (to_uint32 w) (to_uint32 h) ALL_PLANES ∈ trace s2.
Proof.
  intros Hq1 Hq2 Hscreen Hw Hh Hsane1 Hsane2 H1 H2.
  destruct (contract_buffer e1 w h Hw Hh Hsane1 _ _ _ _ _ _ H1) as (Hb1 & _).
  destruct (contract_buffer e2 w h Hw Hh Hsane2 _ _ _ _ _ _ H2) as (Hb2 & _).
  split; [|split; [done|split]].
  - rewrite Hb1, Hb2. by apply captured_pixels_ext.
  - clear H2. grab_unfold. rewrite ?Hq1 in H1. grab_cases; in_trace.
  - clear H1. grab_unfold. rewrite ?Hq2 in H2. grab_cases; in_trace.
Qed.

Lemma shm_and_fallback_buffers_agree_witness :
  ∃ b1 s1 b2 s2,
    x11_grab_screen mock_other None 1 2 2 2 world0 = (Buffer b1, s1) ∧
    x11_grab_screen (mock DISPLAY0 false true true true) None 1 2 2 2 world0
      = (Buffer b2, s2) ∧
    heap_junk mock_other 0 ≠
      heap_junk (mock DISPLAY0 false true true true) 0 ∧
    b1 = b2.
Proof.
  eexists _, _, _, _. split; [by vm_compute|]. split; [by vm_compute|].
  split; [discriminate|].
  eapply (shm_and_fallback_buffers_agree
            mock_other (mock DISPLAY0 false true true true)
            None None 1 2 2 2);
    first [ apply mock_other_malloc_sane | apply mock_malloc_sane
          | lia | reflexivity | vm_compute; reflexivity ].
Defined.

(** ** C5: the size of the buffer *)

(** C5.  For non-negative sizes and an allocator that refuses requests above
    [PTRDIFF_MAX], the buffer of a successful capture has exactly [w * h]
    cells, and an array returned by the entry point is that buffer: it has
    [w * h] elements, all of them copied by one [SetIntArrayRegion] of
    [w * h] elements from index 0. *)
Theorem buffer_has_w_times_h_entries e x y w h :
  0 <= w → 0 <= h → malloc_sane e →
  (∀ name buf s,
     x11_grab_screen e name x y w h world0 = (Buffer buf, s) →
     Z.of_nat (length buf) = w * h) ∧
  (∀ arr s,
     Java_net_java_sip_communicator_impl_neomedia_imgstreaming_UnixScreenCapture_grabScreen
       e x y w h world0 = (JArray arr, s) →
     ∃ s', x11_grab_screen e None x y w h world0 = (Buffer arr, s') ∧
           Z.of_nat (length arr) = w * h ∧
           trace s = trace s' ++ [EvNewIntArray (w * h);
                                  EvSetIntArrayRegion 0 (w * h); EvFree]).
Proof.
  intros Hw Hh Hsane.
  assert (Hlen : ∀ name buf s,
    x11_grab_screen e name x y w h world0 = (Buffer buf, s) →
    Z.of_nat (length buf) = w * h ∧ mul32 w h = w * h).
  { intros name buf s Hgrab.
    by destruct (contract_buffer e w h Hw Hh Hsane _ _ _ _ _ _ Hgrab)
      as (_ & ? & ?). }
  split; [intros name buf s H; by apply (Hlen name buf s)|].
  intros arr s H.
  unfold Java_net_java_sip_communicator_impl_neomedia_imgstreaming_UnixScreenCapture_grabScreen,
    bind in H.
  destruct (x11_grab_screen e None x y w h world0) as [r s'] eqn:Hg.
  destruct r as [|buf|]; [done| |done].
  destruct (Hlen None buf s' Hg) as [Hl Hm].
  assert (Hsz : to_int32 (to_size_t (mul32 w h)) = w * h).
  { pose proof (to_int32_range (w * h)) as Hr. fold (mul32 w h) in Hr.
    unfold in_int32, INT32_MIN, INT32_MAX in Hr.
    rewrite to_size_t_id by lia. rewrite Hm in *. by apply to_int32_id. }
  rewrite Hsz in H.
  unfold NewIntArray, SetIntArrayRegion, free, call, ret in H.
  destruct ((0 <=? w * h) && new_array_ok e (w * h)); [|done].
  rewrite length_replicate, Z2Nat.id in H by lia.
  rewrite !(proj2 (Z.leb_le _ _)) in H by lia.
  simpl in H. injection H as <- <-.
  rewrite (drop_ge (replicate _ _)) by (rewrite length_replicate; lia).
  rewrite take_ge by lia. rewrite app_nil_r.
  exists s'. split; [done|]. split; [done|].
  simpl. by rewrite <- !app_assoc.
Qed.

Lemma buffer_has_w_times_h_entries_witness :
  (∃ buf s, x11_grab_screen (mock DISPLAY0 true true true true) None
              1 2 3 2 world0 = (Buffer buf, s) ∧
            Z.of_nat (length buf) = 3 * 2) ∧
  (∃ arr s,
     Java_net_java_sip_communicator_impl_neomedia_imgstreaming_UnixScreenCapture_grabScreen
       (mock DISPLAY0 true true true true) 1 2 3 2 world0 = (JArray arr, s) ∧
     Z.of_nat (length arr) = 3 * 2).
Proof.
  destruct (buffer_has_w_times_h_entries (mock DISPLAY0 true true true true)
              1 2 3 2 ltac:(lia) ltac:(lia) (mock_malloc_sane _ _ _ _ _))
    as [Hbuf Harr].
  split.
  - eexists _, _. split; [by vm_compute|]. eapply (Hbuf None). by vm_compute.
  - eexists _, _. split; [by vm_compute|].
    edestruct Harr as (s' & _ & Hl & _); [by vm_compute|]. exact Hl.
Defined.

(** ** C6: a failing shared-memory set-up is terminal *)

(** C6.  When the probe reports support and the segment cannot be allocated
    ([shmget] yields -1), cannot be mapped ([shmat]) or cannot be attached
    on the server ([XShmAttach]), the call returns the failure signal with
    the connection closed, and no image request is ever sent: neither the
    fallback [XGetImage] nor [XShmGetImage]. *)
Theorem shm_setup_failure_is_terminal e name x y w h :
  shm_query e = true →
  shmget_id e = -1 ∨ shmat_ok e = false ∨ xshm_attach_ok e = false →
  ∃ s, x11_grab_screen e name x y w h world0 = (NULL, s) ∧
       display_open s = false ∧
       (∀ c, c ∈ trace s → is_image_request c = false).
Proof.
  intros Hq Hfail.
  destruct (x11_grab_screen e name x y w h world0) as [r s] eqn:H.
  assert (r = NULL ∧ display_open s = false ∧
          Forall (λ c, is_image_request c = false) (trace s)) as (-> & ? & Hf).
  { destruct Hfail as [Hf|[Hf|Hf]]; grab_unfold;
      rewrite ?Hq, ?Hf, ?andb_false_r in H; grab_cases;
      repeat split; try done; repeat constructor. }
  exists s. split; [done|split; [done|]]. by apply Forall_forall.
Qed.

Lemma shm_setup_failure_is_terminal_witness :
  ∃ s, x11_grab_screen (mock DISPLAY0 true true false true) None 0 0 1 1 world0
         = (NULL, s) ∧
       display_open s = false ∧
       (∀ c, c ∈ trace s → is_image_request c = false).
Proof.
  apply shm_setup_failure_is_terminal; [reflexivity|].
  right. right. reflexivity.
Defined.

(** ** C7: no display name, no resource *)

(** C7.  When no display name is supplied and the environment holds none,
    the routine returns the failure signal and its only call is the lookup
    of the environment: no connection is opened, no image is created, no
    shared memory is allocated, and no resource flag is ever raised. *)
Theorem no_display_no_resources e x y w h :
  env_DISPLAY e = None →
  x11_grab_screen e None x y w h world0
    = (NULL, mkWorld [EvGetenv] false false false false).
Proof. intros He. grab_unfold. simpl. by rewrite He. Qed.

Lemma no_display_no_resources_witness :
  x11_grab_screen (mock None true true true true) None 0 0 1 1 world0
    = (NULL, mkWorld [EvGetenv] false false false false).
Proof. apply no_display_no_resources. reflexivity. Defined.

(** ** C8: regions with a negative origin *)

(** C8.  Only the right and bottom edges are checked.  With a connection
    open, a region whose origin has a negative coordinate and whose 32-bit
    sums [x + w] and [y + h] are representable and within the screen size
    passes the check: the routine goes on to the capability probe and to
    the capture.  Without shared memory it requests [XGetImage] at the
    negative origin; with shared memory it creates the image descriptor and,
    once the segment is set up, requests [XShmGetImage] at that origin. *)
Theorem negative_origin_passes_validation e name x y w h :
  connects e name →
  x < 0 ∨ y < 0 →
  in_int32 (x + w) → in_int32 (y + h) →
  x + w <= DisplayWidth e → y + h <= DisplayHeight e →
  ∃ r s, x11_grab_screen e name x y w h world0 = (r, s) ∧
    EvShmQueryExtension ∈ trace s ∧
    (shm_query e = false →
     EvGetImage x y (to_uint32 w) (to_uint32 h) ALL_PLANES ∈ trace s) ∧
    (shm_query e = true →
     EvShmCreateImage (DefaultDepth e) (to_uint32 w) (to_uint32 h) ∈ trace s) ∧
    (shm_query e = true → shm_create_ok e = true → shmget_id e ≠ -1 →
     shmat_ok e = true → xshm_attach_ok e = true →
     EvShmGetImage x y ALL_PLANES ∈ trace s).
Proof.
  intros Hc _ Hx Hy Hw Hh.
  apply passed_check_proceeds; [done|].
  apply in_bounds_exact; rewrite 1?(Z.add_comm w), 1?(Z.add_comm h); done.
Qed.

Lemma negative_origin_passes_validation_witness :
  ∃ r s, x11_grab_screen (mock DISPLAY0 false true true true) None
           (-3) 0 5 5 world0 = (r, s) ∧
         EvShmQueryExtension ∈ trace s ∧
         EvGetImage (-3) 0 5 5 ALL_PLANES ∈ trace s.
Proof.
  destruct (negative_origin_passes_validation
              (mock DISPLAY0 false true true true) None (-3) 0 5 5)
    as (r & s & Hs & Hq & Hg & _).
  - apply mock_connects.
  - left. lia.
  - by vm_compute.
  - by vm_compute.
  - simpl. lia.
  - simpl. lia.
  - exists r, s. split; [exact Hs|]. split; [exact Hq|]. apply Hg. reflexivity.
Defined.

(** ** C9: the image descriptor of the fast path cannot be created *)

(** C9.  On the fast path (a connection is open, the region passed the check
    and the server advertises shared memory), a failing [XShmCreateImage]
    makes the routine return the failure signal; the calls are exactly the
    connection, the probe, the creation attempt and the closing of the
    connection, so that no shared-memory operation is issued, and nothing is
    held on return. *)
Theorem shm_image_creation_failure e d name x y w h :
  resolve e name = Some d → open_ok e d = true →
  in_bounds e x y w h = true →
  shm_query e = true → shm_create_ok e = false →
  ∃ s, x11_grab_screen e name x y w h world0 = (NULL, s) ∧
       trace s = resolve_calls name ++
                 [EvOpenDisplay d; EvShmQueryExtension;
                  EvShmCreateImage (DefaultDepth e) (to_uint32 w) (to_uint32 h);
                  EvCloseDisplay] ∧
       (∀ c, c ∈ trace s → is_shm_operation c = false) ∧
       released s.
Proof.
  unfold in_bounds, resolve. intros Hd Ho Hb%negb_true_iff Hq Hc.
  destruct name; simplify_eq; eexists;
    (split; [grab_unfold; simpl; rewrite ?Hd, Ho, Hb, Hq, Hc; reflexivity|]);
    simpl; (split; [done|split; [|done]]); each_call.
Qed.

Lemma shm_image_creation_failure_witness :
  ∃ s, x11_grab_screen (mock DISPLAY0 true false true true) None 2 3 4 5 world0
         = (NULL, s) ∧
       trace s = [EvGetenv; EvOpenDisplay ":0.0"; EvShmQueryExtension;
                  EvShmCreateImage 24 4 5; EvCloseDisplay] ∧
       (∀ c, c ∈ trace s → is_shm_operation c = false) ∧
       released s.
Proof.
  apply (shm_image_creation_failure (mock DISPLAY0 true false true true)
           ":0.0" None 2 3 4 5); reflexivity.
Defined.

(** ** C10: the outcome is a function of the answers *)

(** C10, as stated, does not hold.  Two mock services give the same answers
    and show the same screen, and differ in what their heaps hold.  On the
    region [(0, 0, -1, -1)] both captures succeed and return one cell that
    was never written: [0xdead] from one heap, [0] from the other.  And on
    the region [(2147418112, 2147418112, 65536, 65536)], whose four numbers
    are non-negative, the sums and the product wrap: the check is passed, a
    buffer of no cell is allocated and the conversion stores past it, which
    is neither the failure signal nor a buffer. *)
Lemma outcome_determined_by_answers_counterexample :
  same_answers (mock DISPLAY0 true true true true) mock_other ∧
  (∀ a b, screen (mock DISPLAY0 true true true true) a b
          = screen mock_other a b) ∧
  (x11_grab_screen (mock DISPLAY0 true true true true) None
     0 0 (-1) (-1) world0).1 = Buffer [57005] ∧
  (x11_grab_screen mock_other None 0 0 (-1) (-1) world0).1 = Buffer [0] ∧
  ¬ same_outcome
      (x11_grab_screen (mock DISPLAY0 true true true true) None
         0 0 (-1) (-1) world0).1
      (x11_grab_screen mock_other None 0 0 (-1) (-1) world0).1 ∧
  ¬ same_outcome
      (x11_grab_screen (mock_fallback true true) None
         2147418112 2147418112 65536 65536 world0).1
      (x11_grab_screen (mock_fallback true true) None
         2147418112 2147418112 65536 65536 world0).1.
Proof.
  assert (H1 : (x11_grab_screen (mock DISPLAY0 true true true true) None
                  0 0 (-1) (-1) world0).1 = Buffer [57005])
    by (vm_compute; reflexivity).
  assert (H2 : (x11_grab_screen mock_other None 0 0 (-1) (-1) world0).1
               = Buffer [0])
    by (vm_compute; reflexivity).
  assert (H3 : (x11_grab_screen (mock_fallback true true) None
                  2147418112 2147418112 65536 65536 world0).1 = Overrun).
  { apply (wrapped_count_overruns (mock_fallback true true) ":0.0");
      [reflexivity|vm_compute; reflexivity|lia|lia|].
    split; [vm_compute; discriminate|vm_compute; reflexivity]. }
  split; [apply mock_same_answers|]. split; [reflexivity|].
  split; [exact H1|]. split; [exact H2|]. split.
  - rewrite H1, H2. intros [[Hn _]|(buf & Hb1 & Hb2)]; [discriminate|].
    congruence.
  - rewrite H3. intros [[Hn _]|(buf & Hb & _)]; discriminate.
Qed.

(** C10, amended.  For non-negative sizes whose product is representable in
    32 bits, two invocations with the same display name and region, in
    environments that give the same answers (name lookup, connection,
    screen size, capability probe, success or failure of every call) and
    show the same pixels in the region, end alike: both return the failure
    signal, or both return the same buffer.  The contents of the heap, the
    depth, the stride of the image and the segment id play no part. *)
Theorem outcome_determined_by_answers e1 e2 name x y w h :
  same_answers e1 e2 →
  (∀ i j, 0 <= i < w → 0 <= j < h →
          screen e1 (x + i) (y + j) = screen e2 (x + i) (y + j)) →
  0 <= w → 0 <= h → w * h <= INT32_MAX →
  same_outcome (x11_grab_screen e1 name x y w h world0).1
               (x11_grab_screen e2 name x y w h world0).1.
Proof.
  intros Hsame Hscreen Hw Hh Hfit.
  destruct (same_answers_granted e1 e2 name x y w h Hsame) as [Hres Hgr].
  rewrite !grab_outcome. unfold outcome_of. rewrite <- Hres.
  destruct (resolve e1 name) as [d|]; [|by left].
  rewrite <- Hgr.
  destruct (all_granted e1 d x y w h); [|by left].
  assert (Hm : mul32 w h = w * h).
  { apply mul32_exact. unfold in_int32, INT32_MIN, INT32_MAX in *. nia. }
  assert (Hcells : ∀ e, length (fresh_cells e (buffer_bytes w h))
                        = (Z.to_nat h * Z.to_nat w)%nat).
  { intros e. rewrite buffer_cells_nonneg, Hm by nia. nia. }
  right. exists (all_pixels (captured e1 x y w h) w h).
  rewrite !convert_spec, !Hcells.
  rewrite !bool_decide_true by lia.
  rewrite !drop_ge, !app_nil_r by (rewrite Hcells; lia).
  split; [done|]. by rewrite (captured_pixels_ext e1 e2).
Qed.

Lemma outcome_determined_by_answers_witness :
  same_outcome
    (x11_grab_screen (mock DISPLAY0 true true true true) None 1 2 2 2 world0).1
    (x11_grab_screen mock_other None 1 2 2 2 world0).1.
Proof.
  apply outcome_determined_by_answers.
  - apply mock_same_answers.
  - done.
  - lia.
  - lia.
  - by vm_compute.
Defined.

(** * Further properties of the capture routine *)

(** ** The exits before and after the capture *)

(** X1.  When the server refuses the connection, the routine returns the
    failure signal at once: the connection attempt is its last call, nothing
    is closed because nothing was opened, and nothing is held. *)
Theorem connection_failure_returns_at_once e d name x y w h :
  resolve e name = Some d → open_ok e d = false →
  x11_grab_screen e name x y w h world0
    = (NULL, mkWorld (resolve_calls name ++ [EvOpenDisplay d])
                     false false false false).
Proof.
  unfold resolve. intros Hd Ho.
  destruct name; simplify_eq; grab_unfold; simpl; rewrite ?Hd, Ho; done.
Qed.

Lemma connection_failure_returns_at_once_witness :
  x11_grab_screen (mock_fallback false true) None 0 0 1 1 world0
    = (NULL, mkWorld [EvGetenv; EvOpenDisplay ":0.0"] false false false false).
Proof.
  apply (connection_failure_returns_at_once (mock_fallback false true) ":0.0");
    reflexivity.
Defined.

(** X2.  Without shared memory, a failing [XGetImage] makes the routine
    close the connection and return the failure signal: no buffer is
    allocated and nothing is held. *)
Theorem fallback_capture_failure e d name x y w h :
  resolve e name = Some d → open_ok e d = true →
  in_bounds e x y w h = true →
  shm_query e = false → xgetimage_ok e = false →
  x11_grab_screen e name x y w h world0
    = (NULL,
       mkWorld (resolve_calls name ++
                [EvOpenDisplay d; EvShmQueryExtension;
                 EvGetImage x y (to_uint32 w) (to_uint32 h) ALL_PLANES;
                 EvCloseDisplay])
               false false false false).
Proof.
  unfold resolve, in_bounds. intros Hd Ho Hb%negb_true_iff Hq Hg.
  destruct name; simplify_eq; grab_unfold; simpl;
    rewrite ?Hd, Ho, Hb, Hq, Hg; done.
Qed.

Lemma fallback_capture_failure_witness :
  x11_grab_screen (mock_fallback true false) None 2 3 4 5 world0
    = (NULL,
       mkWorld [EvGetenv; EvOpenDisplay ":0.0"; EvShmQueryExtension;
                EvGetImage 2 3 4 5 ALL_PLANES; EvCloseDisplay]
               false false false false).
Proof.
  apply (fallback_capture_failure (mock_fallback true false) ":0.0");
    reflexivity.
Defined.

(** X3.  When the image was captured and [malloc] refuses the buffer, the
    routine destroys the image, detaches and unmaps the segment if the fast
    path was taken, closes the connection and returns the failure signal
    with nothing held. *)
Theorem malloc_failure_releases e d name x y w h :
  resolve e name = Some d →
  capture_granted e d x y w h = true →
  malloc_ok e (buffer_bytes w h) = false →
  ∃ s, x11_grab_screen e name x y w h world0 = (NULL, s) ∧
       trace s = full_calls e name d x y w h ∧
       released s.
Proof.
  unfold resolve, capture_granted, in_bounds, full_calls, capture_calls,
    release_calls, buffer_bytes.
  intros Hd Hg Hm.
  apply andb_true_iff in Hg as [Hg Hcap].
  apply andb_true_iff in Hg as [Ho Hb]. apply negb_true_iff in Hb.
  destruct name; simplify_eq;
    (destruct (shm_query e) eqn:Hq;
     [ apply andb_true_iff in Hcap as [Hcap Hgi];
       apply andb_true_iff in Hcap as [Hcap Hxa];
       apply andb_true_iff in Hcap as [Hcap Hat];
       apply andb_true_iff in Hcap as [Hc Hid];
       apply negb_true_iff in Hid
     | ]);
    eexists;
    (split; [grab_unfold; simpl; rewrite ?Hd, Ho, Hb, Hq; simpl;
             rewrite ?Hc; simpl; rewrite ?Hid, ?Hat; simpl;
             rewrite ?Hxa; simpl; rewrite ?Hgi, ?Hcap; simpl;
             rewrite Hm; reflexivity|]);
    done.
Qed.


Lemma malloc_failure_releases_witness :
  ∃ s, x11_grab_screen (mock DISPLAY0 true true true true) None
         (-30) (-30) 40 40 world0 = (NULL, s) ∧
       trace s = [EvGetenv; EvOpenDisplay ":0.0"; EvShmQueryExtension;
                  EvShmCreateImage 24 40 40; EvShmget 6400; EvShmat 7;
                  EvShmctlRmid 7; EvShmAttach;
                  EvShmGetImage (-30) (-30) ALL_PLANES; EvMalloc 6400;
                  EvDestroyImage; EvShmDetach; EvShmdt; EvCloseDisplay] ∧
       released s.
Proof.
  apply (malloc_failure_releases (mock DISPLAY0 true true true true) ":0.0"
           None (-30) (-30) 40 40); reflexivity.
Defined.

(** X4.  A successful capture has given everything back when it returns:
    its calls are the connection, the probe, the capture, the allocation
    and then the destruction of the image, the detaching and unmapping of
    the segment on the fast path, and the closing of the connection. *)
Theorem successful_capture_releases e name x y w h buf s :
  x11_grab_screen e name x y w h world0 = (Buffer buf, s) →
  released s ∧
  ∃ d, resolve e name = Some d ∧ trace s = full_calls e name d x y w h.
Proof.
  intros H. unfold full_calls, capture_calls, release_calls, buffer_bytes.
  grab_cases; (split; [done|]); eexists; (split; [done|]); done.
Qed.

Lemma successful_capture_releases_witness :
  released (x11_grab_screen (mock DISPLAY0 true true true true) None
              1 2 2 2 world0).2 ∧
  ∃ d, resolve (mock DISPLAY0 true true true true) None = Some d ∧
       (x11_grab_screen (mock DISPLAY0 true true true true) None
          1 2 2 2 world0).2.(trace)
       = full_calls (mock DISPLAY0 true true true true) None d 1 2 2 2.
Proof.
  eapply (successful_capture_releases (mock DISPLAY0 true true true true)
            None 1 2 2 2). by vm_compute.
Defined.

(** X5.  Whenever a connection was opened and the routine returns,
    [XCloseDisplay] is its last call and is issued exactly once: nothing is
    sent to the server after the connection is closed, on any path. *)
Theorem connection_closed_once_and_last e name x y w h r s :
  connects e name →
  x11_grab_screen e name x y w h world0 = (r, s) →
  r ≠ Overrun →
  ∃ calls, trace s = calls ++ [EvCloseDisplay] ∧
           (EvCloseDisplay ∉ calls) ∧
           display_open s = false.
Proof.
  intros (d & Hd & Ho) H Hr. unfold resolve in Hd.
  destruct name; simplify_eq; grab_unfold; simpl in H;
    rewrite ?Hd, Ho in H; grab_cases; try done;
    match goal with
    | |- ∃ calls, ?t = _ ∧ _ => exists (removelast t)
    end;
    (split; [done|]); (split; [simpl; not_in_trace|done]).
Qed.

Lemma connection_closed_once_and_last_witness :
  ∃ calls,
    (x11_grab_screen (mock DISPLAY0 true true false true) None
       0 0 1 1 world0).2.(trace) = calls ++ [EvCloseDisplay] ∧
    (EvCloseDisplay ∉ calls) ∧
    display_open (x11_grab_screen (mock DISPLAY0 true true false true) None
                    0 0 1 1 world0).2 = false.
Proof.
  eapply (connection_closed_once_and_last
            (mock DISPLAY0 true true false true) None 0 0 1 1).
  - apply mock_connects.
  - by vm_compute.
  - discriminate.
Defined.

(** X6.  The display name: the environment is consulted exactly when no
    name is supplied, and a connection is only ever attempted to the
    resolved name, so a supplied name always takes precedence. *)
Theorem display_name_resolution e name x y w h r s :
  x11_grab_screen e name x y w h world0 = (r, s) →
  (EvGetenv ∈ trace s ↔ name = None) ∧
  (∀ d, EvOpenDisplay d ∈ trace s → resolve e name = Some d).
Proof.
  intros H. unfold resolve.
  grab_cases;
    (split; [split; [try done; not_in_trace
                    |first [done|intros _; in_trace]]|]);
    intros d Hin; pick_call Hin; done.
Qed.

Lemma display_name_resolution_witness :
  (EvGetenv ∈ (x11_grab_screen (mock None true true true true)
                 (Some ":1"%string) 0 0 1 1 world0).2.(trace)
   ↔ Some ":1"%string = None) ∧
  (∀ d, EvOpenDisplay d ∈ (x11_grab_screen (mock None true true true true)
                             (Some ":1"%string) 0 0 1 1 world0).2.(trace) →
        resolve (mock None true true true true) (Some ":1"%string) = Some d).
Proof.
  eapply (display_name_resolution (mock None true true true true)
            (Some ":1"%string) 0 0 1 1). by vm_compute.
Defined.

(** X7.  Whenever a segment is requested, the routine maps it and marks it
    for removal in the next two calls, on the very id [shmget] returned
    (the failure value -1 included), and it has not attached anything on
    the server nor requested any image before. *)
Theorem segment_marked_for_removal e name x y w h r s p :
  x11_grab_screen e name x y w h world0 = (r, s) →
  EvShmget p ∈ trace s →
  ∃ before after,
    trace s = before ++ [EvShmget p; EvShmat (shmget_id e);
                         EvShmctlRmid (shmget_id e)] ++ after ∧
    (EvShmAttach ∉ before) ∧
    (∀ c, c ∈ before → is_image_request c = false).
Proof.
  intros H Hin.
  grab_cases; pick_call Hin;
    match goal with
    | |- ∃ before after, ?t = _ ∧ _ =>
        first [ exists (take 3 t), (drop 6 t); split; [reflexivity|]
              | exists (take 4 t), (drop 7 t); split; [reflexivity|] ]
    end;
    simpl; (split; [not_in_trace|each_call]).
Qed.

Lemma segment_marked_for_removal_witness :
  ∃ before after,
    (x11_grab_screen (mock DISPLAY0 true true false true) None
       0 0 1 1 world0).2.(trace)
      = before ++ [EvShmget 4; EvShmat 7; EvShmctlRmid 7] ++ after ∧
    (EvShmAttach ∉ before) ∧
    (∀ c, c ∈ before → is_image_request c = false).
Proof.
  eapply (segment_marked_for_removal (mock DISPLAY0 true true false true)
            None 0 0 1 1).
  - by vm_compute.
  - vm_compute. in_trace.
Defined.

(** ** Sizes: what is allocated and what is written *)

(** A negative pixel count becomes a request of almost [2 ^ 64] bytes. *)
Lemma buffer_bytes_neg w h :
  mul32 w h < 0 → buffer_bytes w h = 4 * mul32 w h + 2 ^ 64.
Proof.
  intros Hm. pose proof (to_int32_range (w * h)) as Hr.
  fold (mul32 w h) in Hr. unfold in_int32, INT32_MIN, INT32_MAX in Hr.
  unfold buffer_bytes. rewrite (to_size_t_neg (mul32 w h)) by lia.
  replace (4 * (mul32 w h + 2 ^ 64))
    with (4 * mul32 w h + 2 ^ 64 + 3 * 2 ^ 64) by lia.
  unfold to_size_t. rewrite Z_mod_plus_full, Z.mod_small; lia.
Qed.

(** X8.  Memory safety of the conversion: when the product [w * h] is
    representable in 32 bits, the loops never store past the end of the
    buffer, whatever the signs of [w] and [h] and whatever the environment
    answers. *)
Theorem no_overrun_when_product_fits e name x y w h s0 :
  in_int32 (w * h) →
  (x11_grab_screen e name x y w h s0).1 ≠ Overrun.
Proof.
  intros Hfit. rewrite grab_outcome. unfold outcome_of.
  destruct (resolve e name) as [d|]; [|done].
  destruct (all_granted e d x y w h); [|done].
  rewrite convert_spec. rewrite bool_decide_true; [done|].
  pose proof (mul32_exact w h Hfit) as Hm.
  unfold in_int32, INT32_MIN, INT32_MAX in Hfit.
  destruct (decide (0 <= w * h)) as [Hpos|Hneg].
  - rewrite buffer_cells_nonneg, Hm by lia.
    destruct (decide (0 <= w)), (decide (0 <= h)); nia.
  - replace (Z.to_nat h * Z.to_nat w)%nat with 0%nat by nia. lia.
Qed.

Lemma no_overrun_when_product_fits_witness :
  (x11_grab_screen (mock DISPLAY0 true true true true) None
     1 2 2 2 world0).1 ≠ Overrun.
Proof. apply no_overrun_when_product_fits. by vm_compute. Defined.

(** X9.  When the product of two positive sizes wraps around to a smaller
    non-negative [int], the buffer is allocated for the wrapped count and
    the conversion stores past its end. *)
Theorem wrapped_product_overruns e d name x y w h s0 :
  resolve e name = Some d →
  all_granted e d x y w h = true →
  0 < w → 0 < h →
  0 <= mul32 w h < w * h →
  (x11_grab_screen e name x y w h s0).1 = Overrun.
Proof.
  intros Hd Hg Hw Hh Hm. rewrite grab_outcome. unfold outcome_of.
  rewrite Hd, Hg, convert_spec.
  rewrite bool_decide_false; [done|].
  rewrite buffer_cells_nonneg by lia. nia.
Qed.

Lemma wrapped_product_overruns_witness :
  (x11_grab_screen (mock_fallback true true) None
     (-65530) (-65530) 65536 65536 world0).1 = Overrun.
Proof.
  apply (wrapped_product_overruns (mock_fallback true true) ":0.0");
    try reflexivity; by vm_compute.
Defined.

(** X10.  An empty region ([w = 0] or [h = 0]) asks [malloc] for zero
    bytes: the routine returns the failure signal or an empty buffer, and
    it returns the empty buffer exactly when a display name is resolved and
    every call, that [malloc] included, succeeds. *)
Theorem empty_region e name x y w h s0 :
  w = 0 ∨ h = 0 →
  buffer_bytes w h = 0 ∧
  ((x11_grab_screen e name x y w h s0).1 = NULL ∨
   (x11_grab_screen e name x y w h s0).1 = Buffer []) ∧
  ((x11_grab_screen e name x y w h s0).1 = Buffer [] ↔
   ∃ d, resolve e name = Some d ∧ all_granted e d x y w h = true).
Proof.
  intros Hwh.
  assert (Hm : mul32 w h = 0).
  { unfold mul32. replace (w * h) with 0 by lia. done. }
  assert (Hb : buffer_bytes w h = 0).
  { unfold buffer_bytes. rewrite Hm. done. }
  assert (Hconv : ∀ img, convert img w h (fresh_cells e (buffer_bytes w h))
                         = Some ([], 0)).
  { intros img. rewrite convert_spec, Hb.
    assert (Hn : (Z.to_nat h * Z.to_nat w)%nat = 0%nat) by lia.
    rewrite Hn. simpl.
    assert (Hp : all_pixels img w h = []).
    { apply nil_length_inv. by rewrite length_all_pixels. }
    by rewrite Hp. }
  split; [done|]. rewrite grab_outcome. unfold outcome_of.
  destruct (resolve e name) as [d|].
  - destruct (all_granted e d x y w h) eqn:Hg.
    + rewrite Hconv. split; [by right|]. split; [|done].
      intros _. by exists d.
    + split; [by left|]. split; [done|].
      intros (d' & Hd' & Hg'). congruence.
  - split; [by left|]. split; [done|]. by intros (d' & Hd' & _).
Qed.

Lemma empty_region_witness :
  buffer_bytes 0 7 = 0 ∧
  (x11_grab_screen (mock DISPLAY0 true true true true) None
     3 3 0 7 world0).1 = Buffer [].
Proof.
  destruct (empty_region (mock DISPLAY0 true true true true) None
              3 3 0 7 world0) as (Hb & _ & Hiff); [by left|].
  split; [exact Hb|]. apply Hiff. exists ":0.0"%string.
  split; [reflexivity|by vm_compute].
Defined.

(** X11.  A region with exactly one negative size (a negative product that
    is representable in 32 bits) never yields a buffer when the allocator
    refuses requests above [PTRDIFF_MAX]: the sign-extended size makes
    [malloc] fail and the routine returns the failure signal. *)
Theorem negative_product_fails e name x y w h s0 :
  w * h < 0 → in_int32 (w * h) → malloc_sane e →
  PTRDIFF_MAX < buffer_bytes w h ∧
  (x11_grab_screen e name x y w h s0).1 = NULL.
Proof.
  intros Hneg Hfit Hsane.
  pose proof (mul32_exact w h Hfit) as Hm.
  unfold in_int32, INT32_MIN, INT32_MAX in Hfit.
  assert (Hb : PTRDIFF_MAX < buffer_bytes w h).
  { rewrite buffer_bytes_neg by lia. unfold PTRDIFF_MAX. lia. }
  split; [done|]. rewrite grab_outcome. unfold outcome_of.
  destruct (resolve e name) as [d|]; [|done].
  unfold all_granted. by rewrite (Hsane _ Hb), andb_false_r.
Qed.

Lemma negative_product_fails_witness :
  PTRDIFF_MAX < buffer_bytes (-1) 1 ∧
  (x11_grab_screen (mock_fallback true true) None 1 0 (-1) 1 world0).1 = NULL.
Proof.
  apply negative_product_fails; [lia|by vm_compute|].
  intros n Hn. simpl. apply Z.leb_gt. unfold PTRDIFF_MAX in Hn. lia.
Defined.

(** X12.  With two negative sizes the loops do not run, but the buffer is
    allocated for the positive product: a capture that succeeds returns
    [w * h] cells that were never written, that is, whatever the heap held. *)
Theorem negative_sizes_return_unwritten_cells e name x y w h s0 buf s :
  w < 0 → h < 0 → w * h <= INT32_MAX →
  x11_grab_screen e name x y w h s0 = (Buffer buf, s) →
  buf = heap_junk e <$> seq 0 (Z.to_nat (w * h)).
Proof.
  intros Hw Hh Hfit Hgrab.
  destruct (grab_Buffer_contents _ _ _ _ _ _ _ _ _ Hgrab) as [_ ->].
  assert (Hn : (Z.to_nat h * Z.to_nat w)%nat = 0%nat) by lia.
  assert (Hp : all_pixels (captured e x y w h) w h = []).
  { apply nil_length_inv. by rewrite length_all_pixels. }
  rewrite Hn, Hp. simpl.
  assert (Hm : mul32 w h = w * h).
  { apply mul32_exact. unfold in_int32, INT32_MIN, INT32_MAX in *. nia. }
  unfold fresh_cells, buffer_bytes. rewrite Hm.
  rewrite (to_size_t_id (w * h)) by (unfold INT32_MAX in Hfit; nia).
  rewrite to_size_t_id by (unfold INT32_MAX in Hfit; nia).
  replace (4 * (w * h)) with (w * h * 4) by lia.
  by rewrite Z.div_mul.
Qed.

Lemma negative_sizes_return_unwritten_cells_witness :
  [57005] = heap_junk (mock_fallback true true) <$> seq 0 (Z.to_nat (-1 * -1)).
Proof.
  eapply (negative_sizes_return_unwritten_cells (mock_fallback true true)
            None 0 0 (-1) (-1) world0); [lia|lia|by vm_compute|by vm_compute].
Defined.

(** ** What the cells show *)

Lemma alpha_mask_bit n :
  0 <= n → Z.testbit 0xff000000 n = bool_decide (24 <= n < 32).
Proof.
  intros Hn. change 0xff000000 with (Z.shiftl (Z.ones 8) 24).
  destruct (decide (n < 24)) as [Hlt|Hge].
  - rewrite Z.shiftl_spec_low by lia. by rewrite bool_decide_false by lia.
  - rewrite Z.shiftl_spec by lia.
    destruct (decide (n < 32)).
    + rewrite Z.ones_spec_low by lia. by rewrite bool_decide_true by lia.
    + rewrite Z.ones_spec_high by lia. by rewrite bool_decide_false by lia.
Qed.

(** Or-ing the alpha byte into a 32-bit value keeps its low 24 bits and
    replaces the rest. *)
Lemma lor_alpha p :
  Z.lor (p mod 2 ^ 32) 0xff000000 = p mod 2 ^ 24 + 0xff000000.
Proof.
  assert (Hdisj : Z.land (p mod 2 ^ 24) 0xff000000 = 0).
  { apply Z.bits_inj'. intros n Hn.
    rewrite Z.land_spec, alpha_mask_bit, Z.bits_0 by done.
    case_bool_decide; [|apply andb_false_r].
    rewrite Z.mod_pow2_bits_high by lia. done. }
  rewrite (Z.add_nocarry_lxor _ _ Hdisj), (Z.lxor_lor _ _ Hdisj).
  apply Z.bits_inj'. intros n Hn.
  rewrite !Z.lor_spec, alpha_mask_bit by done.
  case_bool_decide; [by rewrite !orb_true_r|]. rewrite !orb_false_r.
  destruct (decide (n < 24)).
  - by rewrite !Z.mod_pow2_bits_low by lia.
  - by rewrite !Z.mod_pow2_bits_high by lia.
Qed.

(** The converted pixels of the region sit at the front of the buffer. *)
Lemma buffer_cell e name x y w h s0 buf s i j :
  x11_grab_screen e name x y w h s0 = (Buffer buf, s) →
  0 <= j < h → 0 <= i < w →
  buf !! Z.to_nat (j * w + i) = Some (argb (served e x y ALL_PLANES i j)).
Proof.
  intros Hgrab Hj Hi.
  destruct (grab_Buffer_contents _ _ _ _ _ _ _ _ _ Hgrab) as [_ ->].
  rewrite lookup_app_l by (rewrite length_all_pixels; nia).
  by rewrite lookup_all_pixels.
Qed.

Lemma served_low_bits e x y i j :
  served e x y ALL_PLANES i j mod 2 ^ 24 = screen e (x + i) (y + j) mod 2 ^ 24.
Proof.
  unfold served. change ALL_PLANES with (Z.ones 32).
  rewrite Z.land_ones by lia. apply Z.mod_mod_divide.
  exists (2 ^ 8). lia.
Qed.

(** X13.  The value stored for a native pixel is its low 24 bits minus
    [2 ^ 24]: as a Java [int] every converted pixel is negative, at least
    [- 2 ^ 24], and the red, green and blue bytes are those of the native
    pixel whatever its bits 24 and above are. *)
Theorem argb_closed_form p : argb p = p mod 2 ^ 24 - 2 ^ 24.
Proof.
  unfold argb, to_uint32. rewrite lor_alpha. unfold to_int32.
  pose proof (Z.mod_pos_bound p (2 ^ 24) ltac:(lia)) as Hlo.
  replace (p mod 2 ^ 24 + 0xff000000 + 2 ^ 31)
    with (p mod 2 ^ 24 + 0xff000000 - 2 ^ 31 + 1 * 2 ^ 32) by lia.
  rewrite Z_mod_plus_full, Z.mod_small by lia. lia.
Qed.

(** X14.  End to end: after a successful capture at origin [(x, y)], the
    cell [j * w + i] of the buffer is the low 24 bits of the screen pixel at
    [(x + i, y + j)] minus [2 ^ 24]. *)
Theorem cell_shows_screen_pixel e name x y w h s0 buf s i j :
  x11_grab_screen e name x y w h s0 = (Buffer buf, s) →
  0 <= j < h → 0 <= i < w →
  buf !! Z.to_nat (j * w + i)
    = Some (screen e (x + i) (y + j) mod 2 ^ 24 - 2 ^ 24).
Proof.
  intros Hgrab Hj Hi.
  rewrite (buffer_cell _ _ _ _ _ _ _ _ _ _ _ Hgrab) by done.
  by rewrite argb_closed_form, served_low_bits.
Qed.

Lemma cell_shows_screen_pixel_witness :
  [-16710637; -16710621; -16710381; -16710365] !! Z.to_nat (1 * 2 + 0)
    = Some (screen (mock DISPLAY0 true true true true) (1 + 0) (2 + 1)
              mod 2 ^ 24 - 2 ^ 24).
Proof.
  eapply (cell_shows_screen_pixel (mock DISPLAY0 true true true true)
            None 1 2 2 2 world0); [by vm_compute|lia|lia].
Defined.

(** X15.  Captures compose: on the same screen, the capture of a rectangle
    that lies inside a larger captured region consists of the corresponding
    cells of the larger buffer. *)
Theorem subregion_cells_agree e name name' x y w h dx dy w' h'
    buf s buf' s' i j :
  x11_grab_screen e name x y w h world0 = (Buffer buf, s) →
  x11_grab_screen e name' (x + dx) (y + dy) w' h' world0 = (Buffer buf', s') →
  0 <= dx → 0 <= dy → dx + w' <= w → dy + h' <= h →
  0 <= j < h' → 0 <= i < w' →
  buf' !! Z.to_nat (j * w' + i) = buf !! Z.to_nat ((dy + j) * w + (dx + i)).
Proof.
  intros Hbig Hsmall Hdx Hdy Hw Hh Hj Hi.
  rewrite (buffer_cell _ _ _ _ _ _ _ _ _ _ _ Hsmall) by done.
  rewrite (buffer_cell _ _ _ _ _ _ _ _ _ _ _ Hbig) by lia.
  unfold served. by rewrite !Z.add_assoc.
Qed.

Lemma subregion_cells_agree_witness :
  [-16710365] !! Z.to_nat (0 * 1 + 0)
    = [-16710637; -16710621; -16710381; -16710365]
        !! Z.to_nat ((1 + 0) * 2 + (1 + 0)).
Proof.
  eapply (subregion_cells_agree (mock DISPLAY0 true true true true)
            None None 1 2 2 2 1 1 1 1 _ _ _ _ 0 0);
    first [lia | by vm_compute].
Defined.

(** ** What the routine never does *)

(** X19.  One invocation sends at most one image request, and the probe
    alone decides which: [XShmGetImage] only after a positive probe,
    [XGetImage] only after a negative one.  No failure on the fast path is
    ever retried through the fallback. *)
Theorem at_most_one_image_request e name x y w h r s :
  x11_grab_screen e name x y w h world0 = (r, s) →
  (length (List.filter is_image_request (trace s)) ≤ 1)%nat ∧
  (∀ a b m, EvShmGetImage a b m ∈ trace s → shm_query e = true) ∧
  (∀ a b c d m, EvGetImage a b c d m ∈ trace s → shm_query e = false).
Proof.
  intros H.
  grab_cases; (split; [simpl; lia|]);
    (split; [intros a b m Hin|intros a b c d m Hin]); pick_call Hin; done.
Qed.

Lemma at_most_one_image_request_witness :
  (length (List.filter is_image_request
             (x11_grab_screen (mock DISPLAY0 true true true false) None
                0 0 1 1 world0).2.(trace)) ≤ 1)%nat ∧
  (∀ a b m,
     EvShmGetImage a b m
       ∈ (x11_grab_screen (mock DISPLAY0 true true true false) None
            0 0 1 1 world0).2.(trace) →
     shm_query (mock DISPLAY0 true true true false) = true) ∧
  (∀ a b c d m,
     EvGetImage a b c d m
       ∈ (x11_grab_screen (mock DISPLAY0 true true true false) None
            0 0 1 1 world0).2.(trace) →
     shm_query (mock DISPLAY0 true true true false) = false).
Proof.
  eapply (at_most_one_image_request (mock DISPLAY0 true true true false)
            None 0 0 1 1). by vm_compute.
Defined.

(** X20.  No call is issued twice in one invocation: nothing is retried,
    and the image, the segment and the connection are each released at
    most once. *)
Theorem no_call_repeated e name x y w h r s :
  x11_grab_screen e name x y w h world0 = (r, s) →
  NoDup (trace s).
Proof.
  intros H.
  grab_cases; repeat (apply NoDup_cons; split; [not_in_trace|]);
    apply NoDup_nil_2.
Qed.

Lemma no_call_repeated_witness :
  NoDup (x11_grab_screen (mock DISPLAY0 true true true true) None
           1 2 2 2 world0).2.(trace).
Proof.
  eapply (no_call_repeated (mock DISPLAY0 true true true true) None 1 2 2 2).
  by vm_compute.
Defined.

(** * Further properties of the JNI entry point *)

(** The length the entry point computes is the wrapped product again. *)
Lemma array_length_mul32 w h : array_length w h = mul32 w h.
Proof.
  unfold array_length. pose proof (to_int32_range (w * h)) as Hr.
  fold (mul32 w h) in Hr. pose proof Hr as Hr'.
  unfold in_int32, INT32_MIN, INT32_MAX in Hr'.
  destruct (decide (mul32 w h < 0)).
  - rewrite to_size_t_neg by lia. unfold to_int32 at 1.
    replace (mul32 w h + 2 ^ 64 + 2 ^ 31)
      with (mul32 w h + 2 ^ 31 + 2 ^ 32 * 2 ^ 32) by lia.
    rewrite Z_mod_plus_full. by apply to_int32_id.
  - rewrite to_size_t_id by lia. by apply to_int32_id.
Qed.

(** A returned buffer has as many cells as were allocated. *)
Lemma buffer_length e name x y w h s0 buf s :
  x11_grab_screen e name x y w h s0 = (Buffer buf, s) →
  length buf = length (fresh_cells e (buffer_bytes w h)).
Proof.
  intros Hgrab.
  destruct (grab_Buffer_contents _ _ _ _ _ _ _ _ _ Hgrab) as [Hfit ->].
  rewrite length_app, length_all_pixels, length_drop. lia.
Qed.

Lemma grab_Buffer_released e name x y w h buf s :
  x11_grab_screen e name x y w h world0 = (Buffer buf, s) → released s.
Proof. intros H. grab_cases; done. Qed.

(** The entry point as a function of what the capture returned. *)
Lemma entry_point_unfold e x y w h s0 :
  Java_net_java_sip_communicator_impl_neomedia_imgstreaming_UnixScreenCapture_grabScreen
    e x y w h s0
  = match x11_grab_screen e None x y w h s0 with
    | (NULL, s) => (JNull, s)
    | (Overrun, s) => (JCrash, s)
    | (Buffer data, s) =>
        (arr <- NewIntArray e (array_length w h) ;;
         r <- SetIntArrayRegion arr 0 (array_length w h) data ;;
         free >> ret r) s
    end.
Proof.
  unfold Java_net_java_sip_communicator_impl_neomedia_imgstreaming_UnixScreenCapture_grabScreen,
    bind at 1.
  by destruct (x11_grab_screen e None x y w h s0) as [[| |] ?].
Qed.

(** X16.  The entry point returns null in two cases and no other: the
    capture returned the failure signal, or it returned a buffer and
    [NewIntArray] failed (the wrapped length is negative or the Java heap
    is exhausted).  After a failed capture it makes no JNI call and frees
    nothing. *)
Theorem entry_point_returns_null_iff e x y w h s0 :
  ((Java_net_java_sip_communicator_impl_neomedia_imgstreaming_UnixScreenCapture_grabScreen
      e x y w h s0).1 = JNull
   ↔ (x11_grab_screen e None x y w h s0).1 = NULL ∨
     ((∃ buf, (x11_grab_screen e None x y w h s0).1 = Buffer buf) ∧
      (0 <=? mul32 w h) && new_array_ok e (mul32 w h) = false)) ∧
  ((x11_grab_screen e None x y w h s0).1 = NULL →
   (Java_net_java_sip_communicator_impl_neomedia_imgstreaming_UnixScreenCapture_grabScreen
      e x y w h s0).2
   = (x11_grab_screen e None x y w h s0).2).
Proof.
  rewrite entry_point_unfold, array_length_mul32.
  destruct (x11_grab_screen e None x y w h s0) as [[|data|] s]; simpl.
  - split; [|done]. split; [by left|done].
  - split; [|done].
    unfold bind, NewIntArray, SetIntArrayRegion, free, call, ret. simpl.
    destruct ((0 <=? mul32 w h) && new_array_ok e (mul32 w h)); simpl.
    + split.
      * repeat case_match; done.
      * intros [?|[_ ?]]; done.
    + split; [|done]. intros _. right. split; [by exists data|done].
  - split; [|done]. split; [done|].
    intros [?|[[buf ?] _]]; done.
Qed.

(** X17.  Whenever the capture returned a buffer, the entry point creates
    the array, copies and frees the buffer, in this order and whatever
    [NewIntArray] answered: the native buffer is freed on every such run,
    and after a failed array creation the entry point returns null. *)
Theorem entry_point_frees_buffer e x y w h s0 buf s' :
  x11_grab_screen e None x y w h s0 = (Buffer buf, s') →
  ∃ r s,
    Java_net_java_sip_communicator_impl_neomedia_imgstreaming_UnixScreenCapture_grabScreen
      e x y w h s0 = (r, s) ∧
    trace s = trace s' ++ [EvNewIntArray (mul32 w h);
                           EvSetIntArrayRegion 0 (mul32 w h); EvFree] ∧
    ((0 <=? mul32 w h) && new_array_ok e (mul32 w h) = false → r = JNull).
Proof.
  intros Hgrab. rewrite entry_point_unfold, Hgrab, array_length_mul32.
  unfold bind, NewIntArray, SetIntArrayRegion, free, call, ret. simpl.
  eexists _, _. split; [done|]. split.
  - simpl. by rewrite <- !app_assoc.
  - by intros ->.
Qed.

Lemma entry_point_frees_buffer_witness :
  ∃ r s,
    Java_net_java_sip_communicator_impl_neomedia_imgstreaming_UnixScreenCapture_grabScreen
      mock_other 1 2 2 2 world0 = (r, s) ∧
    r = JNull ∧
    last (trace s) = Some EvFree.
Proof.
  destruct (entry_point_frees_buffer mock_other 1 2 2 2 world0
              [-16710637; -16710621; -16710381; -16710365]
              (mkWorld [EvGetenv; EvOpenDisplay ":0.0"; EvShmQueryExtension;
                        EvShmCreateImage 32 2 2; EvShmget 32; EvShmat 9;
                        EvShmctlRmid 9; EvShmAttach;
                        EvShmGetImage 1 2 ALL_PLANES; EvMalloc 16;
                        EvDestroyImage; EvShmDetach; EvShmdt; EvCloseDisplay]
                       false false false false))
    as (r & s & Hrun & Htrace & Hnull); [by vm_compute|].
  exists r, s. split; [exact Hrun|]. split; [by apply Hnull|].
  rewrite Htrace. reflexivity.
Defined.

(** X18.  An array handed back by the entry point is always the whole
    native buffer, for any sizes: it has [mul32 w h] elements, the wrapped
    product, and by then nothing of the display service is held. *)
Theorem returned_array_is_the_buffer e x y w h arr s :
  Java_net_java_sip_communicator_impl_neomedia_imgstreaming_UnixScreenCapture_grabScreen
    e x y w h world0 = (JArray arr, s) →
  ∃ s', x11_grab_screen e None x y w h world0 = (Buffer arr, s') ∧
        Z.of_nat (length arr) = mul32 w h ∧
        released s.
Proof.
  rewrite entry_point_unfold, array_length_mul32.
  destruct (x11_grab_screen e None x y w h world0) as [[|buf|] s'] eqn:Hg;
    [done| |done].
  pose proof (buffer_length _ _ _ _ _ _ _ _ _ Hg) as Hlen.
  pose proof (grab_Buffer_released _ _ _ _ _ _ _ _ Hg) as Hrel.
  unfold bind, NewIntArray, SetIntArrayRegion, free, call, ret. simpl.
  destruct (0 <=? mul32 w h) eqn:Hpos; simpl; [|done].
  apply Z.leb_le in Hpos. rewrite buffer_cells_nonneg in Hlen by done.
  destruct (new_array_ok e (mul32 w h)); simpl; [|done].
  rewrite length_replicate, Z2Nat.id by done.
  rewrite !(proj2 (Z.leb_le _ _)) by lia.
  intros [= <- <-].
  rewrite (drop_ge (replicate _ _)) by (rewrite length_replicate; lia).
  rewrite take_ge by lia. rewrite app_nil_r. simpl.
  exists s'. split; [done|]. split; [lia|done].
Qed.

Lemma returned_array_is_the_buffer_witness :
  ∃ s', x11_grab_screen (mock DISPLAY0 false true true true) None
          1 2 2 2 world0
        = (Buffer [-16710637; -16710621; -16710381; -16710365], s') ∧
        Z.of_nat (length [-16710637; -16710621; -16710381; -16710365])
        = mul32 2 2.
Proof.
  edestruct (returned_array_is_the_buffer
               (mock DISPLAY0 false true true true) 1 2 2 2)
    as (s' & Hs' & Hl & _); [by vm_compute|].
  exists s'. split; [exact Hs'|exact Hl].
Defined.
